(* Shallow embedding of the leal-hospital backend: the dependency-injection
   container (server/di/container.go), the auth handlers
   (server/handler/auth/api/auth.go), the OTP service (otp package) and the
   patient service (services/patient). *)

From stdpp Require Import base gmap strings list sorting.
From Stdlib Require Import ZArith Ascii.

(* ===================================================================== *)
(* Dependency container: server/di/container.go                          *)
(* ===================================================================== *)

Module Di.

(* reflect.Type keys, by type name. *)
Abbreviation key := string.

(* A constructed service; Go's untyped nil is None. *)
Abbreviation instance := nat.

(* type Factory func(c *Container) any: a factory runs, possibly calling
   c.Resolve on other keys and using what they return, and ends with the
   value it returns. *)
Inductive Factory :=
| Ret (v : option instance)
| CallResolve (t : key) (k : option instance -> Factory).

(* The three sync.Maps of Container. *)
Record Container := {
  services : gmap key (option instance);
  factories : gmap key Factory;
  resolving : gset key
}.

Definition NewContainer : Container :=
  {| services := ∅; factories := ∅; resolving := ∅ |}.

(* c.services.Store(t, implementation) *)
Definition Register (t : key) (implementation : option instance) (c : Container) : Container :=
  {| services := <[t := implementation]> (services c);
     factories := factories c; resolving := resolving c |}.

(* c.factories.Store(t, factory) *)
Definition RegisterFactory (t : key) (factory : Factory) (c : Container) : Container :=
  {| services := services c; factories := <[t := factory]> (factories c);
     resolving := resolving c |}.

Definition IsRegistered (t : key) (c : Container) : bool :=
  bool_decide (is_Some (services c !! t)) || bool_decide (is_Some (factories c !! t)).

Definition mark (t : key) (c : Container) : Container :=
  {| services := services c; factories := factories c;
     resolving := {[t]} ∪ resolving c |}.

(* the deferred c.resolving.Delete(t) *)
Definition unmark (t : key) (c : Container) : Container :=
  {| services := services c; factories := factories c;
     resolving := resolving c ∖ {[t]} |}.

Definition store (t : key) (s : instance) (c : Container) : Container :=
  {| services := <[t := Some s]> (services c); factories := factories c;
     resolving := resolving c |}.

(* Running factoryFunc(c): every c.Resolve it makes goes through [res].
   None means the fuel ran out. *)
Fixpoint run_factory
    (res : Container -> key -> option (option instance * Container))
    (c : Container) (f : Factory) : option (option instance * Container) :=
  match f with
  | Ret v => Some (v, c)
  | CallResolve t k =>
      match res c t with
      | None => None
      | Some (r, c') => run_factory res c' (k r)
      end
  end.

(* func (c *Container) Resolve(interfacePtr any) any.  [fuel] bounds the
   nesting depth of the calls; None means it ran out (it never returns None
   once the fuel exceeds the nesting depth). *)
Fixpoint Resolve (fuel : nat) (c : Container) (t : key)
    : option (option instance * Container) :=
  match fuel with
  | 0 => None
  | S fuel' =>
      match services c !! t with
      | Some service => Some (service, c)
      | None =>
          if decide (t ∈ resolving c) then Some (None, c)   (* circular: nil *)
          else
            let c1 := mark t c in
            match factories c1 !! t with
            | Some factoryFunc =>
                match run_factory (Resolve fuel') c1 factoryFunc with
                | None => None
                | Some (None, c2) => Some (None, unmark t c2)   (* factory returned nil *)
                | Some (Some service, c2) => Some (Some service, unmark t (store t service c2))
                end
            | None => Some (None, unmark t c1)                 (* not registered *)
            end
      end
  end.

(* Invariant kept by every Resolve: the resolving set and the factories are
   unchanged, and so is the cached entry of every key being resolved. *)
Definition frame (a b : Container) : Prop :=
  resolving b = resolving a /\ factories b = factories a /\
  (forall j, j ∈ resolving a -> services b !! j = services a !! j).

(* The two-factory cycle: A resolves B, B resolves A. *)
Definition cycle_container (fa fb : option instance -> option instance) : Container :=
  {| services := ∅;
     factories := <["B" := CallResolve "A" (fun r => Ret (fb r))]>
                  {["A" := CallResolve "B" (fun r => Ret (fa r))]};
     resolving := ∅ |}.

(* Clear(): the three maps are replaced by empty ones. *)
Definition Clear (c : Container) : Container :=
  {| services := ∅; factories := ∅; resolving := ∅ |}.

End Di.

(* ===================================================================== *)
(* Auth handlers: server/handler/auth/api/auth.go over the lael_users    *)
(* table (models/dbConf/users.sql, schema in the repository)             *)
(* ===================================================================== *)

Module Auth.

Inductive LaelUsersDesignation :=
| LaelUsersDesignationDoctor | LaelUsersDesignationNurse | LaelUsersDesignationStaff.

Inductive LaelUsersStatus :=
| LaelUsersStatusActive | LaelUsersStatusInactive | LaelUsersStatusTemporaryInactive.

(* db.LaelUser (approved_by and the timestamps are not read by these
   handlers); password_hash is a sql.NullString. *)
Record LaelUser := {
  ID : Z;
  Name : string;
  Mobile : string;
  Email : string;
  Designation : LaelUsersDesignation;
  Status : LaelUsersStatus;
  IsAdmin : bool;
  IsApproved : bool;
  PasswordHash : option string
}.

Record CreateUserParams := {
  cu_Name : string;
  cu_Mobile : string;
  cu_Email : string;
  cu_Designation : LaelUsersDesignation;
  cu_IsAdmin : bool;
  cu_IsApproved : bool;
  cu_PasswordHash : option string
}.

(* The users table behind authPersistence, and whether the database
   answers at all. *)
Record UserStore := {
  users : list LaelUser;
  available : bool
}.

(* A gateway result: a row, sql.ErrNoRows, or any other database error
   (connection failure, unique-key violation, ...). *)
Inductive DbResult (A : Type) :=
| DbOk (a : A)
| ErrNoRows
| ErrDb.
Arguments DbOk {A} a.
Arguments ErrNoRows {A}.
Arguments ErrDb {A}.

(* SELECT * FROM lael_users WHERE email = ? *)
Definition GetUserByEmail (st : UserStore) (email : string) : DbResult LaelUser :=
  if negb (available st) then ErrDb else
  match List.find (fun u => String.eqb (Email u) email) (users st) with
  | Some u => DbOk u
  | None => ErrNoRows
  end.

(* INSERT INTO lael_users ...: AUTO_INCREMENT id, status DEFAULT 'active';
   UNIQUE KEY mobile and UNIQUE KEY email reject a duplicate. *)
Definition CreateUser (st : UserStore) (arg : CreateUserParams) : DbResult Z * UserStore :=
  if negb (available st) then (ErrDb, st) else
  if List.existsb (fun u => String.eqb (Mobile u) (cu_Mobile arg)
                           || String.eqb (Email u) (cu_Email arg)) (users st)
  then (ErrDb, st)
  else
    let id := (Z.of_nat (length (users st)) + 1)%Z in
    (DbOk id,
     {| users := users st ++
          [{| ID := id; Name := cu_Name arg; Mobile := cu_Mobile arg;
              Email := cu_Email arg; Designation := cu_Designation arg;
              Status := LaelUsersStatusActive; IsAdmin := cu_IsAdmin arg;
              IsApproved := cu_IsApproved arg; PasswordHash := cu_PasswordHash arg |}];
        available := available st |}).

(* What the handler writes with c.JSON: an AppError's code, or a success
   envelope with its message. *)
Inductive Response :=
| ErrorResponse (code : string)
| SuccessResponse (message : string).

(* medierror codes *)
Definition ErrInternalServer := "1004".
Definition ErrBadRequest := "400".
Definition ErrInvalidCredentials := "2000".
Definition ErrOTPExpired := "2001".
Definition ErrInvalidOTP := "2002".
Definition ErrStaffNotApproved := "2005".
Definition ErrUserNotFound := "3000".
Definition ErrUserAlreadyExists := "3001".

Record RegisterRequest := {
  rr_Name : string;
  rr_Mobile : string;
  rr_Email : string;
  rr_Designation : string;
  rr_Password : string
}.

Record LoginRequest := {
  lr_Email : string;
  lr_Password : string
}.

(* switch req.Designation *)
Definition designation_of (d : string) : option LaelUsersDesignation :=
  if String.eqb d "doctor" then Some LaelUsersDesignationDoctor
  else if String.eqb d "nurse" then Some LaelUsersDesignationNurse
  else if String.eqb d "staff" then Some LaelUsersDesignationStaff
  else None.

Definition register_message :=
  "Registration successful. Please verify OTP sent to your email.".
Definition login_message :=
  "OTP sent to your email. Please verify to complete login.".

(* Register(): [hashed] is what passwordSvc.HashPassword returned (bcrypt
   with a fresh salt; None is its error) and [otp_sent] whether
   otpSvc.GenerateAndSendOTP returned nil. *)
Definition Register (st : UserStore) (req : RegisterRequest)
    (hashed : option string) (otp_sent : bool) : Response * UserStore :=
  let create :=
    match hashed with
    | None => (ErrorResponse ErrInternalServer, st)
    | Some passwordHash =>
        match designation_of (rr_Designation req) with
        | None => (ErrorResponse ErrBadRequest, st)
        | Some designation =>
            match CreateUser st {| cu_Name := rr_Name req; cu_Mobile := rr_Mobile req;
                                   cu_Email := rr_Email req; cu_Designation := designation;
                                   cu_IsAdmin := false; cu_IsApproved := false;
                                   cu_PasswordHash := Some passwordHash |} with
            | (DbOk _, st') =>
                if otp_sent then (SuccessResponse register_message, st')
                else (ErrorResponse ErrInternalServer, st')
            | (_, st') => (ErrorResponse ErrInternalServer, st')
            end
        end
    end in
  match GetUserByEmail st (rr_Email req) with
  | DbOk existingUser =>
      if (0 <? ID existingUser)%Z then (ErrorResponse ErrUserAlreadyExists, st) else create
  | _ => create
  end.

(* Login(): [VerifyPassword h p] is true when passwordSvc.VerifyPassword
   returned nil (a mismatch and a malformed hash both fail). *)
Definition Login (st : UserStore) (VerifyPassword : string -> string -> bool)
    (req : LoginRequest) (otp_sent : bool) : Response :=
  match GetUserByEmail st (lr_Email req) with
  | ErrNoRows => ErrorResponse ErrInvalidCredentials
  | ErrDb => ErrorResponse ErrInternalServer
  | DbOk user =>
      if negb (IsApproved user) then ErrorResponse ErrStaffNotApproved else
      match PasswordHash user with
      | None => ErrorResponse ErrInvalidCredentials
      | Some h =>
          if negb (VerifyPassword h (lr_Password req)) then ErrorResponse ErrInvalidCredentials
          else if otp_sent then SuccessResponse login_message
          else ErrorResponse ErrInternalServer
      end
  end.

(* A toy password check for concrete runs: the hash is the password. *)
Definition plain_verify (h p : string) : bool := String.eqb h p.

Definition priya : LaelUser :=
  {| ID := 1; Name := "Nurse Priya"; Mobile := "9876543211"; Email := "priya@lael.in";
     Designation := LaelUsersDesignationNurse; Status := LaelUsersStatusActive;
     IsAdmin := false; IsApproved := false; PasswordHash := Some "secret123" |}.

Definition ravi : LaelUser :=
  {| ID := 2; Name := "Dr Ravi"; Mobile := "9876543212"; Email := "ravi@lael.in";
     Designation := LaelUsersDesignationDoctor; Status := LaelUsersStatusInactive;
     IsAdmin := false; IsApproved := true; PasswordHash := Some "ravipass1" |}.

Definition demo_store : UserStore := {| users := [priya; ravi]; available := true |}.

Definition login_req (e p : string) : LoginRequest := {| lr_Email := e; lr_Password := p |}.

Definition register_req (n m e d p : string) : RegisterRequest :=
  {| rr_Name := n; rr_Mobile := m; rr_Email := e; rr_Designation := d; rr_Password := p |}.

Definition ErrSessionExpired := "2003".
Definition ErrUnauthorized := "401".
Definition ErrForbidden := "403".

(* SELECT * FROM lael_users WHERE id = ? *)
Definition GetUserByID (st : UserStore) (id : Z) : DbResult LaelUser :=
  if negb (available st) then ErrDb else
  match List.find (fun u => Z.eqb (ID u) id) (users st) with
  | Some u => DbOk u
  | None => ErrNoRows
  end.

Record UpdateUserPasswordParams := {
  up_PasswordHash : option string;
  up_ID : Z
}.

Definition set_password_hash (h : option string) (u : LaelUser) : LaelUser :=
  {| ID := ID u; Name := Name u; Mobile := Mobile u; Email := Email u;
     Designation := Designation u; Status := Status u; IsAdmin := IsAdmin u;
     IsApproved := IsApproved u; PasswordHash := h |}.

(* UPDATE lael_users SET password_hash = ? WHERE id = ?: an :exec query, so
   no matching row is not an error. *)
Definition UpdateUserPassword (st : UserStore) (arg : UpdateUserPasswordParams)
    : DbResult unit * UserStore :=
  if negb (available st) then (ErrDb, st) else
  (DbOk tt,
   {| users := map (fun u => if Z.eqb (ID u) (up_ID arg)
                             then set_password_hash (up_PasswordHash arg) u else u) (users st);
      available := available st |}).

Definition forgot_message := "If the email exists, an OTP has been sent.".

(* ForgotPassword(): [otp_sent] is whether otpSvc.GenerateAndSendOTP
   returned nil. *)
Definition ForgotPassword (st : UserStore) (email : string) (otp_sent : bool) : Response :=
  match GetUserByEmail st email with
  | ErrNoRows => SuccessResponse forgot_message
  | ErrDb => ErrorResponse ErrInternalServer
  | DbOk _ => if otp_sent then SuccessResponse forgot_message
              else ErrorResponse ErrInternalServer
  end.

(* domain.TokenClaims, as JWTSvc.ValidateToken returns them. *)
Record TokenClaims := {
  tc_UserID : Z;
  tc_Email : string;
  tc_IsAdmin : bool;
  tc_Type : string
}.

(* RefreshToken(): [ValidateToken] is jwtSvc.ValidateToken at the current
   time (None is its error: bad signature, expired, malformed);
   [tokens_ok] is whether both token generations returned nil.  The
   success envelope carries the new tokens and no message. *)
Definition RefreshToken (st : UserStore) (ValidateToken : string -> option TokenClaims)
    (refreshToken : string) (tokens_ok : bool) : Response :=
  match ValidateToken refreshToken with
  | None => ErrorResponse ErrSessionExpired
  | Some claims =>
      if negb (String.eqb (tc_Type claims) "refresh") then ErrorResponse ErrUnauthorized else
      match GetUserByID st (tc_UserID claims) with
      | DbOk _ => if tokens_ok then SuccessResponse "" else ErrorResponse ErrInternalServer
      | _ => ErrorResponse ErrUserNotFound
      end
  end.

(* strings.Split(s, " "): the pieces between single spaces, n + 1 of them
   for n spaces. *)
Fixpoint Split_space (s : string) : list string :=
  match s with
  | EmptyString => [""%string]
  | String c rest =>
      let parts := Split_space rest in
      if Ascii.eqb c " "%char then ""%string :: parts
      else match parts with
           | p :: ps => String c p :: ps
           | [] => [String c ""]
           end
  end.

(* The keys AuthMiddleware sets on the gin.Context. *)
Record GinContext := {
  ctx_user_id : option Z;
  ctx_email : option string;
  ctx_is_admin : option bool
}.

Inductive MiddlewareResult :=
| Abort (status : Z) (error : string)
| Next (c : GinContext).

(* middleware.AuthMiddleware(jwtSvc) on the Authorization header. *)
Definition AuthMiddleware (ValidateToken : string -> option TokenClaims)
    (authHeader : string) : MiddlewareResult :=
  if String.eqb authHeader "" then Abort 401 "Authorization header required" else
  match Split_space authHeader with
  | [part0; tokenString] =>
      if negb (String.eqb part0 "Bearer")
      then Abort 401 "Invalid authorization format. Use: Bearer <token>" else
      match ValidateToken tokenString with
      | None => Abort 401 "Invalid or expired token"
      | Some claims =>
          if negb (String.eqb (tc_Type claims) "access") then Abort 401 "Access token required"
          else Next {| ctx_user_id := Some (tc_UserID claims); ctx_email := Some (tc_Email claims);
                       ctx_is_admin := Some (tc_IsAdmin claims) |}
      end
  | _ => Abort 401 "Invalid authorization format. Use: Bearer <token>"
  end.

(* handler/utils.ValidationType *)
Inductive ValidationType := NoValidation | AuthenticatedUser | ApprovedUser | AdminUser.

(* domain.User as ValidateRequest builds it *)
Record User := { du_ID : Z; du_Email : string; du_IsAdmin : bool }.

(* handlerUtils.ValidateRequest: the user, or the AppError's code.
   cast.ToBool of a missing is_admin is false. *)
Definition ValidateRequest (c : GinContext) (validationType : ValidationType)
    : option User * option string :=
  match validationType with
  | NoValidation => (None, None)
  | _ =>
      match ctx_user_id c with
      | None => (None, Some ErrUnauthorized)
      | Some userID =>
          match ctx_email c with
          | None => (None, Some ErrUnauthorized)
          | Some email =>
              let user := {| du_ID := userID; du_Email := email;
                             du_IsAdmin := match ctx_is_admin c with Some b => b | None => false end |} in
              match validationType with
              | AdminUser => if negb (du_IsAdmin user) then (None, Some ErrForbidden)
                             else (Some user, None)
              | _ => (Some user, None)
              end
          end
      end
  end.

(* No space character in s. *)
Definition no_space (s : string) : bool :=
  forallb (fun c => negb (Ascii.eqb c " "%char)) (String.list_ascii_of_string s).

Definition demo_claims (ty : string) : TokenClaims :=
  {| tc_UserID := 2; tc_Email := "ravi@lael.in"; tc_IsAdmin := false; tc_Type := ty |}.

(* A token check for concrete runs: tokA is an access token, tokR a
   refresh token, anything else is invalid. *)
Definition demo_validate (tok : string) : option TokenClaims :=
  if String.eqb tok "tokA" then Some (demo_claims "access")
  else if String.eqb tok "tokR" then Some (demo_claims "refresh")
  else None.

End Auth.

(* ===================================================================== *)
(* OTP service: the otp package (OTPSvc.VerifyOTP) over the lael_otp     *)
(* table (models/dbConf/patients.sql), and the VerifyOTP handler         *)
(* ===================================================================== *)

Module OtpSvc.

Inductive LaelOtpOtpType :=
| LaelOtpOtpTypeRegistration | LaelOtpOtpTypeLogin | LaelOtpOtpTypeForgotPassword.

Definition otp_type_eqb (a b : LaelOtpOtpType) : bool :=
  match a, b with
  | LaelOtpOtpTypeRegistration, LaelOtpOtpTypeRegistration
  | LaelOtpOtpTypeLogin, LaelOtpOtpTypeLogin
  | LaelOtpOtpTypeForgotPassword, LaelOtpOtpTypeForgotPassword => true
  | _, _ => false
  end.

(* db.LaelOtp; times are seconds. *)
Record LaelOtp := {
  ID : nat;
  Mobile : string;
  Email : string;
  Otp : string;
  Expiry : Z;
  IsValidated : bool;
  OtpType : LaelOtpOtpType;
  RetryCount : Z;
  CreatedOn : Z
}.

(* switch otpType *)
Definition otp_type_of (otpType : string) : option LaelOtpOtpType :=
  if String.eqb otpType "registration" then Some LaelOtpOtpTypeRegistration
  else if String.eqb otpType "login" then Some LaelOtpOtpTypeLogin
  else if String.eqb otpType "forgot_password" then Some LaelOtpOtpTypeForgotPassword
  else None.

Definition matches_key (email : string) (ty : LaelOtpOtpType) (r : LaelOtp) : bool :=
  String.eqb (Email r) email && otp_type_eqb (OtpType r) ty && negb (IsValidated r).

(* GetLatestOTPByEmail: WHERE email = ? AND otp_type = ? AND
   is_validated = FALSE ORDER BY created_on DESC LIMIT 1.  The table is a
   list in insertion order; among rows with the same created_on the later
   insertion is taken (SQL leaves that tie unspecified). None is
   sql.ErrNoRows. *)
Definition GetLatestOTPByEmail (s : list LaelOtp) (email : string) (ty : LaelOtpOtpType)
    : option LaelOtp :=
  fold_left (fun acc r =>
    if matches_key email ty r then
      match acc with
      | Some b => if (CreatedOn b <=? CreatedOn r)%Z then Some r else acc
      | None => Some r
      end
    else acc) s None.

Definition set_validated (r : LaelOtp) : LaelOtp :=
  {| ID := ID r; Mobile := Mobile r; Email := Email r; Otp := Otp r; Expiry := Expiry r;
     IsValidated := true; OtpType := OtpType r; RetryCount := RetryCount r;
     CreatedOn := CreatedOn r |}.

Definition bump_retry (r : LaelOtp) : LaelOtp :=
  {| ID := ID r; Mobile := Mobile r; Email := Email r; Otp := Otp r; Expiry := Expiry r;
     IsValidated := IsValidated r; OtpType := OtpType r; RetryCount := RetryCount r + 1;
     CreatedOn := CreatedOn r |}.

(* UPDATE lael_otp SET is_validated = TRUE WHERE id = ? *)
Definition ValidateOTP (s : list LaelOtp) (id : nat) : list LaelOtp :=
  map (fun r => if Nat.eqb (ID r) id then set_validated r else r) s.

(* UPDATE lael_otp SET retry_count = retry_count + 1 WHERE id = ? *)
Definition IncrementRetryCount (s : list LaelOtp) (id : nat) : list LaelOtp :=
  map (fun r => if Nat.eqb (ID r) id then bump_retry r else r) s.

(* OTPSvc.VerifyOTP(email, otp, otpType) (bool, error) at time [now]; the
   error is Some message.  The table queries are taken to succeed. *)
Definition VerifyOTP (s : list LaelOtp) (now : Z) (email otp otpType : string)
    : (bool * option string) * list LaelOtp :=
  match otp_type_of otpType with
  | None => ((false, Some "invalid OTP type"), s)
  | Some dbOtpType =>
      match GetLatestOTPByEmail s email dbOtpType with
      | None => ((false, None), s)
      | Some otpRecord =>
          if (Expiry otpRecord <? now)%Z then ((false, None), s)
          else if negb (String.eqb (Otp otpRecord) otp)
          then ((false, None), IncrementRetryCount s (ID otpRecord))
          else ((true, None), ValidateOTP s (ID otpRecord))
      end
  end.

Record VerifyOTPRequest := {
  vr_Email : string;
  vr_OTP : string;
  vr_OTPType : string
}.

(* authHandler.VerifyOTP(); [tokens_ok] is whether both jwtSvc calls
   returned nil. *)
Definition VerifyOTPHandler (us : Auth.UserStore) (s : list LaelOtp) (now : Z)
    (req : VerifyOTPRequest) (tokens_ok : bool) : Auth.Response * list LaelOtp :=
  let '((isValid, err), s') := VerifyOTP s now (vr_Email req) (vr_OTP req) (vr_OTPType req) in
  match err with
  | Some _ => (Auth.ErrorResponse Auth.ErrInternalServer, s')
  | None =>
      if negb isValid then (Auth.ErrorResponse Auth.ErrInvalidOTP, s') else
      match Auth.GetUserByEmail us (vr_Email req) with
      | Auth.DbOk _ =>
          if tokens_ok then (Auth.SuccessResponse "OTP verified successfully", s')
          else (Auth.ErrorResponse Auth.ErrInternalServer, s')
      | _ => (Auth.ErrorResponse Auth.ErrUserNotFound, s')
      end
  end.

(* ResetPassword(): [hashed] is what passwordSvc.HashPassword returned
   (None is its error). *)
Record ResetPasswordRequest := {
  rp_Email : string;
  rp_OTP : string;
  rp_NewPassword : string
}.

Definition ResetPassword (us : Auth.UserStore) (s : list LaelOtp) (now : Z)
    (req : ResetPasswordRequest) (hashed : option string)
    : Auth.Response * Auth.UserStore * list LaelOtp :=
  let '((isValid, err), s') := VerifyOTP s now (rp_Email req) (rp_OTP req) "forgot_password" in
  match err with
  | Some _ => (Auth.ErrorResponse Auth.ErrInternalServer, us, s')
  | None =>
      if negb isValid then (Auth.ErrorResponse Auth.ErrInvalidOTP, us, s') else
      match Auth.GetUserByEmail us (rp_Email req) with
      | Auth.DbOk user =>
          match hashed with
          | None => (Auth.ErrorResponse Auth.ErrInternalServer, us, s')
          | Some passwordHash =>
              match Auth.UpdateUserPassword us {| Auth.up_PasswordHash := Some passwordHash;
                                                  Auth.up_ID := Auth.ID user |} with
              | (Auth.DbOk _, us') => (Auth.SuccessResponse "Password reset successfully", us', s')
              | (_, us') => (Auth.ErrorResponse Auth.ErrInternalServer, us', s')
              end
          end
      | _ => (Auth.ErrorResponse Auth.ErrUserNotFound, us, s')
      end
  end.

(* ----- generateOTP ----- *)

Definition digit_char (d : Z) : Ascii.ascii := Ascii.ascii_of_nat (48 + Z.to_nat d).

(* The decimal digits of n, most significant first, in front of acc. *)
Fixpoint digits_aux (fuel : nat) (n : Z) (acc : list Ascii.ascii) : list Ascii.ascii :=
  match fuel with
  | 0 => acc
  | S f =>
      let acc' := digit_char (n mod 10) :: acc in
      if (n <? 10)%Z then acc' else digits_aux f (n / 10) acc'
  end.

(* fmt's %d of a non-negative integer *)
Definition decimal (n : Z) : list Ascii.ascii := digits_aux (S (Z.to_nat n)) n [].

(* fmt.Sprintf("%0<w>d", n): zeros on the left up to width w. *)
Definition fmt_zero_pad (w : nat) (n : Z) : list Ascii.ascii :=
  let d := decimal n in repeat "0"%char (w - length d) ++ d.

(* The value of a string of decimal digits. *)
Definition decimal_value (l : list Ascii.ascii) : Z :=
  fold_left (fun acc c => acc * 10 + (Z.of_nat (Ascii.nat_of_ascii c) - 48))%Z l 0%Z.

(* OTPSvc.generateOTP with SecurityConfig.OTPLength = otpLength; [randInt m]
   is rand.Int(rand.Reader, m) (None is its error). *)
Definition generateOTP (otpLength : Z) (randInt : Z -> option Z) : option string :=
  let otpLength := if (otpLength <=? 0)%Z then 6%Z else otpLength in
  let max := (10 ^ otpLength)%Z in
  match randInt max with
  | None => None
  | Some n => Some (String.string_of_list_ascii (fmt_zero_pad (Z.to_nat otpLength) n))
  end.

(* ----- CreateOTP, GenerateAndSendOTP, CleanupExpiredOTPs ----- *)

Record CreateOTPParams := {
  co_Mobile : string;
  co_Email : string;
  co_Otp : string;
  co_Expiry : Z;
  co_OtpType : LaelOtpOtpType
}.

(* AUTO_INCREMENT: above every id in the table *)
Definition next_otp_id (s : list LaelOtp) : nat := S (fold_right Nat.max 0 (map ID s)).

(* INSERT INTO lael_otp (mobile, email, otp, expiry, otp_type, retry_count)
   VALUES (?, ?, ?, ?, ?, 0): is_validated DEFAULT 0, created_on DEFAULT
   CURRENT_TIMESTAMP (here [now]).  The otp column is varchar(6); MySQL's
   default strict SQL mode rejects a longer value.  None is the error. *)
Definition CreateOTP (s : list LaelOtp) (now : Z) (arg : CreateOTPParams) : option (list LaelOtp) :=
  if Nat.ltb 6 (String.length (co_Otp arg)) then None
  else Some (s ++ [{| ID := next_otp_id s; Mobile := co_Mobile arg; Email := co_Email arg;
                      Otp := co_Otp arg; Expiry := co_Expiry arg; IsValidated := false;
                      OtpType := co_OtpType arg; RetryCount := 0; CreatedOn := now |}]).

(* SecurityConfig fields read by the OTP service *)
Record SecurityConfig := { OTPLength : Z; OTPExpiration : Z }.

(* OTPSvc.GenerateAndSendOTP(email, name, otpType) at time [now]; [email_ok]
   is whether EmailSvc.SendOTP returned nil.  The error is Some message. *)
Definition GenerateAndSendOTP (s : list LaelOtp) (now : Z) (cfg : SecurityConfig)
    (randInt : Z -> option Z) (email_ok : bool) (email name otpType : string)
    : option string * list LaelOtp :=
  match generateOTP (OTPLength cfg) randInt with
  | None => (Some "failed to generate OTP", s)
  | Some otp =>
      let expiry := (now + OTPExpiration cfg)%Z in
      match otp_type_of otpType with
      | None => (Some "invalid OTP type", s)
      | Some dbOtpType =>
          match CreateOTP s now {| co_Mobile := ""; co_Email := email; co_Otp := otp;
                                   co_Expiry := expiry; co_OtpType := dbOtpType |} with
          | None => (Some "failed to store OTP", s)
          | Some s' => if email_ok then (None, s') else (Some "failed to send OTP email", s')
          end
      end
  end.

(* DELETE FROM lael_otp WHERE expiry < NOW() *)
Definition DeleteExpiredOTP (s : list LaelOtp) (now : Z) : list LaelOtp :=
  List.filter (fun r => negb (Expiry r <? now)%Z) s.

(* OTPSvc.CleanupExpiredOTPs at time [now] *)
Definition CleanupExpiredOTPs (s : list LaelOtp) (now : Z) : option string * list LaelOtp :=
  (None, DeleteExpiredOTP s now).

Definition otp_row (id : nat) (code : string) (created : Z) : LaelOtp :=
  {| ID := id; Mobile := ""; Email := "a@x.com"; Otp := code; Expiry := 1000;
     IsValidated := false; OtpType := LaelOtpOtpTypeLogin; RetryCount := 0;
     CreatedOn := created |}.

Definition one_row : list LaelOtp := [otp_row 1 "123456" 10].
Definition two_rows_same_code : list LaelOtp := [otp_row 1 "123456" 10; otp_row 2 "123456" 20].

Definition verify_req (code : string) : VerifyOTPRequest :=
  {| vr_Email := "a@x.com"; vr_OTP := code; vr_OTPType := "login" |}.

End OtpSvc.

(* ===================================================================== *)
(* Patient service: services/patient (validation.go, merge.go,           *)
(* RegisterPatient) over the lael_patients table                         *)
(* ===================================================================== *)

Module PatientSvc.

(* sql.NullString *)
Record NullString := { ns_String : string; ns_Valid : bool }.
Definition NullString_zero : NullString := {| ns_String := ""; ns_Valid := false |}.

(* db.LaelPatient (timestamps left out); age and visit_number are int32,
   sex is the string type db.LaelPatientsSex. *)
Record LaelPatient := {
  ID : Z;
  Name : string;
  Mobile : string;
  OpdID : string;
  Age : Z;
  Sex : string;
  AddressLocality : NullString;
  AddressCity : NullString;
  AddressState : NullString;
  AddressPincode : NullString;
  VisitNumber : Z
}.

Record CreatePatientParams := {
  cp_Name : string;
  cp_Mobile : string;
  cp_OpdID : string;
  cp_Age : Z;
  cp_Sex : string;
  cp_AddressLocality : NullString;
  cp_AddressCity : NullString;
  cp_AddressState : NullString;
  cp_AddressPincode : NullString;
  cp_VisitNumber : Z
}.

Record Address := { Locality : string; City : string; State : string; Pincode : string }.

Record RegisterRequest := {
  rq_Mobile : string;
  rq_OpdId : option string;
  rq_Name : string;
  rq_Age : Z;
  rq_Sex : string;
  rq_Address : Address
}.

Record RegisterResponse := { resp_ID : Z; resp_OpdId : string; resp_VisitNumber : Z }.

Record ServiceError := { Code : string; Type_ : string }.

Definition HandleServiceErr (code errType : string) : ServiceError :=
  {| Code := code; Type_ := errType |}.

(* status.OK *)
Definition OK := "200".

Record PatientStore := { rows : list LaelPatient; available : bool }.

(* int32 addition wraps *)
Definition wrap_int32 (z : Z) : Z := ((z + 2 ^ 31) mod 2 ^ 32 - 2 ^ 31)%Z.

Definition is_digit (c : Ascii.ascii) : bool :=
  let n := Ascii.nat_of_ascii c in Nat.leb 48 n && Nat.leb n 57.

(* isValidMobile: len == 10 and ^[0-9]{10}$ *)
Definition isValidMobile (mobile : string) : bool :=
  Nat.eqb (String.length mobile) 10 && forallb is_digit (String.list_ascii_of_string mobile).

Definition isValidAge (age : Z) : bool := (1 <=? age)%Z && (age <=? 150)%Z.

Definition isValidSex (sex : string) : bool :=
  String.eqb sex "male" || String.eqb sex "female" || String.eqb sex "other".

Definition validateNewPatient (req : RegisterRequest) : bool :=
  negb (String.eqb (rq_Mobile req) "" || String.eqb (rq_Name req) ""
        || (rq_Age req =? 0)%Z || String.eqb (rq_Sex req) "").

Definition validateRevisitPatient (req : RegisterRequest) : bool :=
  negb (String.eqb (rq_Mobile req) "") &&
  match rq_OpdId req with Some o => negb (String.eqb o "") | None => false end.

(* GetLatestVisitByOPDID: WHERE opd_id = ? ORDER BY visit_number DESC, first
   row (the earliest stored among equal visit numbers). *)
Definition GetLatestVisitByOPDID (st : PatientStore) (opdId : string) : Auth.DbResult LaelPatient :=
  if negb (available st) then Auth.ErrDb else
  match fold_left (fun acc p =>
          if String.eqb (OpdID p) opdId then
            match acc with
            | Some b => if (VisitNumber b <? VisitNumber p)%Z then Some p else acc
            | None => Some p
            end
          else acc) (rows st) None with
  | Some p => Auth.DbOk p
  | None => Auth.ErrNoRows
  end.

(* INSERT INTO lael_patients ...: AUTO_INCREMENT id; the schema's
   UNIQUE KEY opd_id rejects a second row with the same opd_id. *)
Definition CreatePatient (st : PatientStore) (params : CreatePatientParams)
    : Auth.DbResult Z * PatientStore :=
  if negb (available st) then (Auth.ErrDb, st) else
  if existsb (fun p => String.eqb (OpdID p) (cp_OpdID params)) (rows st) then (Auth.ErrDb, st)
  else
    let id := (Z.of_nat (length (rows st)) + 1)%Z in
    (Auth.DbOk id,
     {| rows := rows st ++
          [{| ID := id; Name := cp_Name params; Mobile := cp_Mobile params;
              OpdID := cp_OpdID params; Age := cp_Age params; Sex := cp_Sex params;
              AddressLocality := cp_AddressLocality params;
              AddressCity := cp_AddressCity params;
              AddressState := cp_AddressState params;
              AddressPincode := cp_AddressPincode params;
              VisitNumber := cp_VisitNumber params |}];
        available := available st |}).

Definition merge_null (v : string) (prev : NullString) : NullString :=
  if negb (String.eqb v "") then {| ns_String := v; ns_Valid := true |} else prev.

(* mergePatientData(newData, previousData) *)
Definition mergePatientData (newData : RegisterRequest) (previousData : LaelPatient)
    : CreatePatientParams :=
  {| cp_Mobile := Mobile previousData;
     cp_OpdID := OpdID previousData;
     cp_VisitNumber := wrap_int32 (VisitNumber previousData + 1);
     cp_Name := if negb (String.eqb (rq_Name newData) "") then rq_Name newData
                else Name previousData;
     cp_Age := if (0 <? rq_Age newData)%Z then rq_Age newData else Age previousData;
     cp_Sex := if negb (String.eqb (rq_Sex newData) "") then rq_Sex newData
               else Sex previousData;
     cp_AddressLocality := merge_null (Locality (rq_Address newData)) (AddressLocality previousData);
     cp_AddressCity := merge_null (City (rq_Address newData)) (AddressCity previousData);
     cp_AddressState := merge_null (State (rq_Address newData)) (AddressState previousData);
     cp_AddressPincode := merge_null (Pincode (rq_Address newData)) (AddressPincode previousData) |}.

Definition set_null (v : string) : NullString :=
  if negb (String.eqb v "") then {| ns_String := v; ns_Valid := true |} else NullString_zero.

Abbreviation Result := ((option RegisterResponse * ServiceError) * PatientStore)%type.

(* The tail of RegisterPatient: CreatePatient and the response. *)
Definition finish_register (params : CreatePatientParams) (r : Auth.DbResult Z * PatientStore)
    : Result :=
  match r with
  | (Auth.DbOk id, st') =>
      ((Some {| resp_ID := id; resp_OpdId := cp_OpdID params;
                resp_VisitNumber := cp_VisitNumber params |},
        {| Code := OK; Type_ := "" |}), st')
  | (_, st') => ((None, HandleServiceErr "1005" "INTERNAL"), st')
  end.

(* PatientSvc.RegisterPatient; [opdId] is what generateOPDID returns. *)
Definition RegisterPatient (st : PatientStore) (req : RegisterRequest) (opdId : string) : Result :=
  if negb (isValidMobile (rq_Mobile req)) then ((None, HandleServiceErr "4003" "INTERNAL"), st) else
  match rq_OpdId req with
  | Some o =>
      if String.eqb o "" then
        (* new patient: an empty opd_id counts as none *)
        if negb (validateNewPatient req) then ((None, HandleServiceErr "4004" "INTERNAL"), st)
        else if negb (isValidAge (rq_Age req)) then ((None, HandleServiceErr "4001" "INTERNAL"), st)
        else if negb (isValidSex (rq_Sex req)) then ((None, HandleServiceErr "4001" "INTERNAL"), st)
        else let params := {| cp_Name := rq_Name req; cp_Mobile := rq_Mobile req;
                              cp_OpdID := opdId; cp_Age := rq_Age req; cp_Sex := rq_Sex req;
                              cp_AddressLocality := set_null (Locality (rq_Address req));
                              cp_AddressCity := set_null (City (rq_Address req));
                              cp_AddressState := set_null (State (rq_Address req));
                              cp_AddressPincode := set_null (Pincode (rq_Address req));
                              cp_VisitNumber := 1 |} in
             finish_register params (CreatePatient st params)
      else
        (* revisit *)
        if negb (validateRevisitPatient req) then ((None, HandleServiceErr "4004" "INTERNAL"), st)
        else
          match GetLatestVisitByOPDID st o with
          | Auth.ErrNoRows => ((None, HandleServiceErr "4005" "INTERNAL"), st)
          | Auth.ErrDb => ((None, HandleServiceErr "1005" "INTERNAL"), st)
          | Auth.DbOk previousVisit =>
              if negb (String.eqb (Mobile previousVisit) (rq_Mobile req))
              then ((None, HandleServiceErr "4005" "INTERNAL"), st)
              else let params := mergePatientData req previousVisit in
                   finish_register params (CreatePatient st params)
          end
  | None =>
      if negb (validateNewPatient req) then ((None, HandleServiceErr "4004" "INTERNAL"), st)
      else if negb (isValidAge (rq_Age req)) then ((None, HandleServiceErr "4001" "INTERNAL"), st)
      else if negb (isValidSex (rq_Sex req)) then ((None, HandleServiceErr "4001" "INTERNAL"), st)
      else let params := {| cp_Name := rq_Name req; cp_Mobile := rq_Mobile req;
                            cp_OpdID := opdId; cp_Age := rq_Age req; cp_Sex := rq_Sex req;
                            cp_AddressLocality := set_null (Locality (rq_Address req));
                            cp_AddressCity := set_null (City (rq_Address req));
                            cp_AddressState := set_null (State (rq_Address req));
                            cp_AddressPincode := set_null (Pincode (rq_Address req));
                            cp_VisitNumber := 1 |} in
           finish_register params (CreatePatient st params)
  end.

(* GetAllVisitsByMobile: WHERE mobile = ? ORDER BY visit_number ASC (the
   order among equal visit numbers is left to the database; a stable merge
   sort here).  A :many query returns an empty list, never sql.ErrNoRows. *)
Definition visit_le (a b : LaelPatient) : Prop := (VisitNumber a <= VisitNumber b)%Z.

#[global] Instance visit_le_dec : RelDecision visit_le.
Proof. intros a b. unfold visit_le. apply _. Defined.

#[global] Instance visit_le_total : Total visit_le.
Proof. intros a b. unfold visit_le. lia. Qed.

#[global] Instance visit_le_trans : Transitive visit_le.
Proof. intros a b c. unfold visit_le. lia. Qed.

Definition GetAllVisitsByMobile (st : PatientStore) (mobile : string)
    : Auth.DbResult (list LaelPatient) :=
  if negb (available st) then Auth.ErrDb else
  Auth.DbOk (merge_sort visit_le (List.filter (fun p => String.eqb (Mobile p) mobile) (rows st))).

(* Visit and LatestVisit (CreatedOn, a formatted timestamp, is left out) *)
Record Visit := {
  v_ID : Z; v_Name : string; v_Age : Z; v_Sex : string; v_Address : Address; v_VisitNumber : Z
}.

Record LatestVisit := {
  lv_VisitNumber : Z; lv_Age : Z; lv_Name : string; lv_Sex : string; lv_Address : Address
}.

Record LookupResponse := {
  lk_Mobile : string; lk_OpdId : string; lk_Visits : list Visit; lk_LatestVisit : LatestVisit
}.

Definition address_of (p : LaelPatient) : Address :=
  {| Locality := ns_String (AddressLocality p); City := ns_String (AddressCity p);
     State := ns_String (AddressState p); Pincode := ns_String (AddressPincode p) |}.

Definition to_visit (visit : LaelPatient) : Visit :=
  {| v_ID := ID visit; v_Name := Name visit; v_Age := Age visit; v_Sex := Sex visit;
     v_Address := address_of visit; v_VisitNumber := VisitNumber visit |}.

(* PatientSvc.LookupPatient(mobile) *)
Definition LookupPatient (st : PatientStore) (mobile : string)
    : option LookupResponse * ServiceError :=
  if negb (isValidMobile mobile) then (None, HandleServiceErr "4003" "INTERNAL") else
  match GetAllVisitsByMobile st mobile with
  | Auth.ErrNoRows => (None, HandleServiceErr "4000" "INTERNAL")
  | Auth.ErrDb => (None, HandleServiceErr "1005" "INTERNAL")
  | Auth.DbOk visits =>
      match visits with
      | [] => (None, HandleServiceErr "4000" "INTERNAL")
      | v0 :: _ =>
          let latestVisit := List.last visits v0 in
          (Some {| lk_Mobile := mobile; lk_OpdId := OpdID v0; lk_Visits := map to_visit visits;
                   lk_LatestVisit := {| lv_VisitNumber := VisitNumber latestVisit;
                                        lv_Age := Age latestVisit; lv_Name := Name latestVisit;
                                        lv_Sex := Sex latestVisit;
                                        lv_Address := address_of latestVisit |} |},
           {| Code := OK; Type_ := "" |})
      end
  end.

Definition no_address : Address := {| Locality := ""; City := ""; State := ""; Pincode := "" |}.

Definition first_visit : LaelPatient :=
  {| ID := 1; Name := "Meena"; Mobile := "7777777777"; OpdID := "LAEL7f3k"; Age := 41;
     Sex := "female";
     AddressLocality := {| ns_String := "MG Road"; ns_Valid := true |};
     AddressCity := {| ns_String := "Pune"; ns_Valid := true |};
     AddressState := {| ns_String := "MH"; ns_Valid := true |};
     AddressPincode := {| ns_String := "411001"; ns_Valid := true |};
     VisitNumber := 1 |}.

Definition patient_store : PatientStore := {| rows := [first_visit]; available := true |}.

Definition revisit_req (mobile opd : string) (age : Z) : RegisterRequest :=
  {| rq_Mobile := mobile; rq_OpdId := Some opd; rq_Name := ""; rq_Age := age; rq_Sex := "";
     rq_Address := no_address |}.

End PatientSvc.

Module DiFacts.
Import Di.

Lemma frame_refl c : frame c c.
Proof. repeat split; auto. Qed.

Lemma frame_trans a b d : frame a b -> frame b d -> frame a d.
Proof.
  intros (H1 & H2 & H3) (H4 & H5 & H6). repeat split; [congruence | congruence |].
  intros j Hj. rewrite H6, H3; auto. rewrite H1; done.
Qed.

Lemma run_factory_frame res :
  (forall c t r c', res c t = Some (r, c') -> frame c c') ->
  forall f c r c', run_factory res c f = Some (r, c') -> frame c c'.
Proof.
  intros Hres f. induction f as [v | t k IH]; intros c r c' Hrun; simpl in Hrun.
  - inversion Hrun; subst. apply frame_refl.
  - destruct (res c t) as [[r1 c1] |] eqn:E; [| discriminate].
    eapply frame_trans; [eapply Hres; eauto | eapply IH; eauto].
Qed.

Lemma Resolve_frame fuel : forall c t r c', Resolve fuel c t = Some (r, c') -> frame c c'.
Proof.
  induction fuel as [| fuel IH]; intros c t r c' HR; simpl in HR; [discriminate |].
  destruct (services c !! t) as [s |] eqn:Es.
  { inversion HR; subst. apply frame_refl. }
  case_decide as Hin.
  { inversion HR; subst. apply frame_refl. }
  simpl in HR.
  destruct (factories c !! t) as [f |] eqn:Ef.
  - destruct (run_factory (Resolve fuel) (mark t c) f) as [[[s |] c2] |] eqn:Erun;
      [| | discriminate]; inversion HR; subst;
      pose proof (run_factory_frame _ IH f _ _ _ Erun) as (F1 & F2 & F3);
      simpl in F1, F2, F3; repeat split; simpl.
    + rewrite F1. apply leibniz_equiv. set_solver.
    + exact F2.
    + intros j Hj. assert (j <> t) by set_solver.
      rewrite lookup_insert_ne by congruence. apply F3. set_solver.
    + rewrite F1. apply leibniz_equiv. set_solver.
    + exact F2.
    + intros j Hj. apply F3. set_solver.
  - inversion HR; subst. repeat split; simpl; auto.
    apply leibniz_equiv. set_solver.
Qed.

Lemma Resolve_failed_keeps_entry fuel c t c' :
  Resolve fuel c t = Some (None, c') -> t ∉ resolving c ->
  services c !! t = None -> services c' !! t = None.
Proof.
  intros HR Hin Hs. destruct fuel as [| fuel]; simpl in HR; [discriminate |].
  rewrite Hs in HR. rewrite decide_False in HR by done. simpl in HR.
  destruct (factories c !! t) as [f |] eqn:Ef.
  - destruct (run_factory (Resolve fuel) (mark t c) f) as [[[s |] c2] |] eqn:Erun;
      inversion HR; subst.
    pose proof (run_factory_frame _ (Resolve_frame fuel) f _ _ _ Erun) as (_ & _ & F3).
    simpl. rewrite F3 by (simpl; set_solver). exact Hs.
  - inversion HR; subst. exact Hs.
Qed.

(** C10: every exit path of Resolve leaves the "currently resolving" set as
    it found it (the deferred Delete undoes the mark, and the circular exit
    never marks), so a failed resolution does not poison its key: once a
    working factory is registered, the same key resolves. *)
Theorem Resolve_clears_resolving_mark fuel c t r c' :
  Resolve fuel c t = Some (r, c') ->
  resolving c' = resolving c /\
  (t ∉ resolving c -> services c !! t = None -> r = None ->
   forall v : instance,
     fst <$> Resolve 1 (RegisterFactory t (Ret (Some v)) c') t = Some (Some v)).
Proof.
  intros HR. destruct (Resolve_frame _ _ _ _ _ HR) as (F1 & _ & _).
  split; [exact F1 |]. intros Hin Hs Hr v. subst r.
  pose proof (Resolve_failed_keeps_entry _ _ _ _ HR Hin Hs) as Hs'.
  simpl. rewrite Hs'. rewrite decide_False by (rewrite F1; done).
  simpl. rewrite lookup_insert_eq. reflexivity.
Qed.

Lemma Resolve_clears_resolving_mark_witness :
  resolving (Di.NewContainer) = ∅ /\
  fst <$> Resolve 1 (RegisterFactory "A" (Ret (Some 7)) (unmark "A" (mark "A" NewContainer))) "A"
    = Some (Some 7).
Proof.
  split; [reflexivity |].
  apply (proj2 (Resolve_clears_resolving_mark 1 NewContainer "A" None
                  (unmark "A" (mark "A" NewContainer)) eq_refl));
    [set_solver | reflexivity | reflexivity].
Defined.

(** C5 (counterexample): with factory A resolving B and factory B resolving
    A, where B builds a non-nil service whatever it gets back, Resolve(A)
    returns a non-nil service: the cycle is not reported to the caller. *)
Lemma Resolve_cycle_not_reported :
  fst <$> Resolve 3 (cycle_container (fun _ => Some 1) (fun _ => Some 2)) "A" = Some (Some 1).
Proof. vm_compute. reflexivity. Qed.

(** C5 (amended): for every container in which factory A resolves B and
    factory B resolves A (and neither is cached or being resolved), Resolve(A)
    terminates within three nested calls; the re-entrant Resolve(A) made by
    factory B returns nil, B's result is what B builds from that nil (cached
    when non-nil), and Resolve(A) returns what A builds from B's result; the
    resolving set is restored. *)
Theorem Resolve_cycle_terminates (c : Container) (a b : key)
    (fa fb : option instance -> option instance) (n : nat) :
  a <> b ->
  factories c !! a = Some (CallResolve b (fun r => Ret (fa r))) ->
  factories c !! b = Some (CallResolve a (fun r => Ret (fb r))) ->
  services c !! a = None -> services c !! b = None ->
  a ∉ resolving c -> b ∉ resolving c ->
  exists c', Resolve (3 + n) c a = Some (fa (fb None), c') /\
    resolving c' = resolving c /\
    services c' !! b = (match fb None with Some s => Some (Some s) | None => None end).
Proof.
  intros Hab Hfa Hfb Hsa Hsb Ha Hb. simpl.
  rewrite Hsa, decide_False by done. simpl. rewrite Hfa. simpl.
  rewrite Hsb, decide_False by set_solver. simpl. rewrite Hfb. simpl.
  rewrite Hsa, decide_True by set_solver. simpl.
  destruct (fb None) as [sb |] eqn:Eb; simpl.
  - destruct (fa (Some sb)) as [sa |]; eexists; (split; [reflexivity |]); simpl;
      (split; [apply leibniz_equiv; set_solver |]).
    + rewrite lookup_insert_ne by congruence. apply lookup_insert_eq.
    + apply lookup_insert_eq.
  - destruct (fa None) as [sa |]; eexists; (split; [reflexivity |]); simpl;
      (split; [apply leibniz_equiv; set_solver |]).
    + rewrite lookup_insert_ne by congruence. exact Hsb.
    + exact Hsb.
Qed.

Lemma Resolve_cycle_terminates_witness :
  exists c', Resolve 3 (cycle_container (fun _ => Some 1) (fun _ => None)) "A" = Some (Some 1, c') /\
    resolving c' = ∅ /\ services c' !! "B" = None.
Proof.
  apply (Resolve_cycle_terminates (cycle_container (fun _ => Some 1) (fun _ => None))
           "A" "B" (fun _ => Some 1) (fun _ => None) 0);
    [discriminate | reflexivity | reflexivity | reflexivity | reflexivity | set_solver | set_solver].
Defined.

(* ----- Register, IsRegistered, Clear and the cache ----- *)

Lemma Resolve_absent fuel c t :
  services c !! t = None -> factories c !! t = None -> t ∉ resolving c ->
  Resolve (S fuel) c t = Some (None, c).
Proof.
  intros Hs Hf Hin. simpl. rewrite Hs, decide_False by done. simpl. rewrite Hf.
  destruct c as [sv fs rs]. unfold unmark, mark. simpl in *. do 2 f_equal.
  f_equal. apply leibniz_equiv. set_solver.
Qed.

(** X1: an instance registered with Register, nil included, is what Resolve
    returns for its key, without running any factory and without changing
    the container, whether a factory for that key was registered before or
    after it. *)
Theorem Resolve_registered_shadows_factory fuel c t v f :
  Resolve (S fuel) (Register t v (RegisterFactory t f c)) t
    = Some (v, Register t v (RegisterFactory t f c)) /\
  Resolve (S fuel) (RegisterFactory t f (Register t v c)) t
    = Some (v, RegisterFactory t f (Register t v c)).
Proof. split; simpl; rewrite lookup_insert_eq; reflexivity. Qed.

(** X2: a Resolve that returns a non-nil service leaves it cached under its
    key, so every later Resolve of that key returns the same service at
    once and changes nothing: a factory that succeeded is not run again. *)
Theorem Resolve_caches_success fuel c t s c' :
  Resolve fuel c t = Some (Some s, c') ->
  services c' !! t = Some (Some s) /\
  forall fuel', Resolve (S fuel') c' t = Some (Some s, c').
Proof.
  intros HR.
  assert (Hc : services c' !! t = Some (Some s)).
  { destruct fuel as [| fuel]; simpl in HR; [discriminate |].
    destruct (services c !! t) as [sv |] eqn:Es; [inversion HR; subst; exact Es |].
    case_decide; [discriminate |]. simpl in HR.
    destruct (factories c !! t) as [fa |]; [| discriminate].
    destruct (run_factory (Resolve fuel) (mark t c) fa) as [[[sv |] c2] |];
      inversion HR; subst. simpl. apply lookup_insert_eq. }
  split; [exact Hc |]. intros fuel'. simpl. rewrite Hc. reflexivity.
Qed.

Lemma Resolve_caches_success_witness :
  services (snd (default (None, NewContainer)
    (Resolve 1 (RegisterFactory "A" (Ret (Some 5)) NewContainer) "A"))) !! "A" = Some (Some 5).
Proof.
  exact (proj1 (Resolve_caches_success 1 (RegisterFactory "A" (Ret (Some 5)) NewContainer) "A" 5
    (snd (default (None, NewContainer)
      (Resolve 1 (RegisterFactory "A" (Ret (Some 5)) NewContainer) "A"))) eq_refl)).
Defined.

(** X3: resolving a key for which IsRegistered is false, and which is not
    being resolved, returns nil and leaves the container exactly as it was
    (the resolving mark is set and removed again). *)
Theorem Resolve_unregistered_nil fuel c t :
  IsRegistered t c = false -> t ∉ resolving c ->
  Resolve (S fuel) c t = Some (None, c).
Proof.
  intros Hr Hin. unfold IsRegistered in Hr. apply orb_false_iff in Hr as [H1 H2].
  apply bool_decide_eq_false in H1, H2.
  apply Resolve_absent; [| | exact Hin]; apply eq_None_not_Some; assumption.
Qed.

Lemma Resolve_unregistered_nil_witness :
  Resolve 1 (Register "B" (Some 1) NewContainer) "A" = Some (None, Register "B" (Some 1) NewContainer).
Proof. apply Resolve_unregistered_nil; [reflexivity | set_solver]. Defined.

(** X4: after Clear no key is registered, and every Resolve returns nil and
    leaves the cleared container unchanged, whatever was registered or
    cached before. *)
Theorem Clear_forgets_everything c t fuel :
  IsRegistered t (Clear c) = false /\ Resolve (S fuel) (Clear c) t = Some (None, Clear c).
Proof.
  split; [reflexivity |]. apply Resolve_absent; simpl; [reflexivity | reflexivity | set_solver].
Qed.

(** X5: IsRegistered reports only that a factory exists: a factory that
    returns nil makes the key registered, yet Resolve returns nil and
    caches nothing, so the factory runs again on every later Resolve. *)
Theorem Resolve_nil_factory_not_cached fuel c t :
  services c !! t = None -> t ∉ resolving c ->
  IsRegistered t (RegisterFactory t (Ret None) c) = true /\
  Resolve (S fuel) (RegisterFactory t (Ret None) c) t = Some (None, RegisterFactory t (Ret None) c).
Proof.
  intros Hs Hin. split.
  - unfold IsRegistered. simpl. rewrite lookup_insert_eq. apply orb_true_r.
  - simpl. rewrite Hs, decide_False by done. simpl. rewrite lookup_insert_eq. simpl.
    destruct c as [sv fs rs]. unfold unmark, RegisterFactory. simpl in *. do 2 f_equal.
    f_equal. apply leibniz_equiv. set_solver.
Qed.

Lemma Resolve_nil_factory_not_cached_witness :
  Resolve 2 (RegisterFactory "A" (Ret None) NewContainer) "A"
    = Some (None, RegisterFactory "A" (Ret None) NewContainer).
Proof. apply (Resolve_nil_factory_not_cached 1 NewContainer "A"); [reflexivity | set_solver]. Defined.

End DiFacts.

Module AuthFacts.
Import Auth.

(* For an approved user the three credential failures share code 2000. *)
Lemma Login_approved_failures_generic st vp req sent user :
  GetUserByEmail st (lr_Email req) = DbOk user -> IsApproved user = true ->
  (PasswordHash user = None \/
   exists h, PasswordHash user = Some h /\ vp h (lr_Password req) = false) ->
  Login st vp req sent = ErrorResponse ErrInvalidCredentials.
Proof.
  intros Hg Ha Hp. unfold Login. rewrite Hg, Ha. simpl.
  destruct Hp as [-> | (h & -> & Hv)]; [reflexivity |]. rewrite Hv. reflexivity.
Qed.

(** C1 (code_bug): Login runs the approval gate before the password check,
    so an existing but unapproved user with a wrong password gets the
    staff-not-approved code 2005, while an unknown email gets the generic
    invalid-credentials code 2000: the two failures are distinguishable. *)
Lemma Login_unapproved_wrong_password_not_generic :
  Login demo_store plain_verify (login_req "priya@lael.in" "wrongpass") true
    = ErrorResponse ErrStaffNotApproved /\
  Login demo_store plain_verify (login_req "nobody@lael.in" "wrongpass") true
    = ErrorResponse ErrInvalidCredentials /\
  ErrStaffNotApproved <> ErrInvalidCredentials.
Proof. split; [reflexivity | split; [reflexivity | discriminate]]. Qed.

(** C2 (counterexample): an approved user whose status is inactive and whose
    password verifies is not stopped: Login answers with success (login OTP
    sent), not with an 'inactive' signal. *)
Lemma Login_inactive_user_succeeds :
  Status ravi = LaelUsersStatusInactive /\
  Login demo_store plain_verify (login_req "ravi@lael.in" "ravipass1") true
    = SuccessResponse login_message.
Proof. split; reflexivity. Qed.

(** C2 (amended): for an existing user whose password verifies, Login
    answers an unapproved user with the distinct code 2005 (neither success
    nor 2000); an approved user proceeds to the login OTP whatever the
    user's status. *)
Theorem Login_approval_gate_status_unchecked st vp req sent user h :
  GetUserByEmail st (lr_Email req) = DbOk user ->
  PasswordHash user = Some h -> vp h (lr_Password req) = true ->
  Login st vp req sent =
    if IsApproved user then
      (if sent then SuccessResponse login_message else ErrorResponse ErrInternalServer)
    else ErrorResponse ErrStaffNotApproved.
Proof.
  intros Hg Hh Hv. unfold Login. rewrite Hg.
  destruct (IsApproved user); simpl; [| reflexivity]. rewrite Hh, Hv. reflexivity.
Qed.

Lemma Login_approval_gate_status_unchecked_witness :
  Login demo_store plain_verify (login_req "ravi@lael.in" "ravipass1") true
    = SuccessResponse login_message.
Proof.
  apply (Login_approval_gate_status_unchecked demo_store plain_verify
           (login_req "ravi@lael.in" "ravipass1") true ravi "ravipass1");
    reflexivity.
Defined.

(** C3: every user Register creates has is_admin = false and
    is_approved = false (the request carries no admin role: designation is
    doctor, nurse or staff), so is_approved holds exactly for admins, and
    every staff registration is unapproved. Register either leaves the table
    unchanged or appends one such user. *)
Theorem Register_creates_unapproved_non_admin st req hashed sent resp st' :
  Register st req hashed sent = (resp, st') ->
  st' = st \/
  exists u, users st' = users st ++ [u] /\
    IsAdmin u = false /\ IsApproved u = false /\ IsApproved u = IsAdmin u.
Proof.
  intros HR. unfold Register, CreateUser in HR.
  destruct (GetUserByEmail st (rr_Email req)) as [e | |];
    [destruct (0 <? ID e)%Z; [inversion HR; auto |] | |];
    (destruct hashed as [p |]; [| inversion HR; auto]);
    (destruct (designation_of (rr_Designation req)); [| inversion HR; auto]);
    (destruct (negb (available st)); [inversion HR; auto |]);
    (destruct (existsb _ (users st)); [inversion HR; auto |]);
    (destruct sent; inversion HR; subst; right; eexists; simpl; eauto).
Qed.

Lemma Register_creates_unapproved_non_admin_witness :
  exists u, users (snd (Register demo_store
      (register_req "Asha" "9876543213" "asha@lael.in" "staff" "password9")
      (Some "h9") true)) = users demo_store ++ [u] /\
    IsAdmin u = false /\ IsApproved u = false /\ IsApproved u = IsAdmin u.
Proof.
  destruct (Register_creates_unapproved_non_admin demo_store
              (register_req "Asha" "9876543213" "asha@lael.in" "staff" "password9")
              (Some "h9") true _ _ (surjective_pairing _)) as [E | Hu];
    [discriminate E | exact Hu].
Defined.

(** C4 (counterexample): a registration whose mobile is already taken but
    whose email is new passes the email-only pre-check; CreateUser is then
    rejected by the unique key and Register answers with the internal-server
    code 1004, not 'already exists' (3001). *)
Lemma Register_duplicate_mobile_internal_error :
  Register demo_store (register_req "Priya K" "9876543211" "priya.k@lael.in" "nurse" "password1")
    (Some "h1") true = (ErrorResponse ErrInternalServer, demo_store).
Proof. reflexivity. Qed.

(** C4 (amended): Register pre-checks only the email: an existing email
    (positive id) yields 'already exists' (3001) with nothing written; a
    duplicate mobile under a new email reaches CreateUser, whose unique-key
    rejection yields the internal-server code 1004, nothing written. *)
Theorem Register_duplicate_outcomes st req hashed sent :
  (forall u, GetUserByEmail st (rr_Email req) = DbOk u -> (0 < ID u)%Z ->
     Register st req hashed sent = (ErrorResponse ErrUserAlreadyExists, st)) /\
  (GetUserByEmail st (rr_Email req) = ErrNoRows -> hashed <> None ->
   designation_of (rr_Designation req) <> None ->
   (exists u, In u (users st) /\ Mobile u = rr_Mobile req) ->
   Register st req hashed sent = (ErrorResponse ErrInternalServer, st)).
Proof.
  split.
  - intros u Hg Hid. unfold Register. rewrite Hg.
    apply Z.ltb_lt in Hid. rewrite Hid. reflexivity.
  - intros Hg Hh Hd (u & Hin & Hm). unfold Register. rewrite Hg.
    destruct hashed as [p |]; [| congruence].
    destruct (designation_of (rr_Designation req)); [| congruence].
    unfold CreateUser. simpl.
    assert (Hav : available st = true).
    { unfold GetUserByEmail in Hg. destruct (available st); [reflexivity | discriminate]. }
    rewrite Hav. simpl.
    replace (existsb _ (users st)) with true; [reflexivity |].
    symmetry. apply existsb_exists. exists u. split; [exact Hin |].
    rewrite Hm, String.eqb_refl. reflexivity.
Qed.

Lemma Register_duplicate_outcomes_witness :
  Register demo_store (register_req "Priya K" "9876543211" "priya.k@lael.in" "nurse" "password1")
    (Some "h1") true = (ErrorResponse ErrInternalServer, demo_store).
Proof.
  apply (proj2 (Register_duplicate_outcomes demo_store
    (register_req "Priya K" "9876543211" "priya.k@lael.in" "nurse" "password1")
    (Some "h1") true)); [reflexivity | discriminate | discriminate |].
  exists priya. split; [left; reflexivity | reflexivity].
Defined.

(* ----- persistence round trips ----- *)

Lemma find_app {A} (f : A -> bool) (l1 l2 : list A) :
  List.find f (l1 ++ l2) = match List.find f l1 with Some x => Some x | None => List.find f l2 end.
Proof. induction l1 as [| x l1 IH]; simpl; [reflexivity |]. destruct (f x); auto. Qed.

Lemma find_none_forall {A} (f : A -> bool) (l : list A) :
  (forall x, In x l -> f x = false) -> List.find f l = None.
Proof.
  induction l as [| x l IH]; intros H; simpl; [reflexivity |].
  rewrite (H x (or_introl eq_refl)). apply IH. intros y Hy. apply H. right. exact Hy.
Qed.

Lemma CreateUser_lookup st arg id st' :
  CreateUser st arg = (DbOk id, st') ->
  GetUserByEmail st' (cu_Email arg) =
    DbOk {| ID := id; Name := cu_Name arg; Mobile := cu_Mobile arg; Email := cu_Email arg;
            Designation := cu_Designation arg; Status := LaelUsersStatusActive;
            IsAdmin := cu_IsAdmin arg; IsApproved := cu_IsApproved arg;
            PasswordHash := cu_PasswordHash arg |} /\
  (forall e, e <> cu_Email arg -> GetUserByEmail st' e = GetUserByEmail st e).
Proof.
  unfold CreateUser. intros H.
  destruct (available st) eqn:Ea; simpl in H; [| discriminate].
  destruct (existsb _ (users st)) eqn:Ex; [discriminate |].
  inversion H; subst id st'. clear H.
  assert (Hno : forall u, In u (users st) -> String.eqb (Email u) (cu_Email arg) = false).
  { intros u Hu. destruct (String.eqb (Email u) (cu_Email arg)) eqn:E; [| reflexivity].
    exfalso. assert (existsb (fun u => String.eqb (Mobile u) (cu_Mobile arg)
                              || String.eqb (Email u) (cu_Email arg)) (users st) = true)
      as Hc by (apply existsb_exists; exists u; rewrite E, orb_true_r; auto).
    congruence. }
  split.
  - unfold GetUserByEmail. simpl. rewrite ?Ea. simpl. rewrite find_app.
    rewrite (find_none_forall _ _ Hno). simpl. rewrite String.eqb_refl. reflexivity.
  - intros e He. unfold GetUserByEmail. simpl. rewrite ?Ea. simpl. rewrite find_app.
    destruct (List.find _ (users st)); [reflexivity |]. simpl.
    destruct (String.eqb (cu_Email arg) e) eqn:E; [apply String.eqb_eq in E; congruence |].
    reflexivity.
Qed.



(** X7: right after a successful Register, Login with the registered email
    answers staff-not-approved (2005) for every password: a new account
    cannot log in until it is approved. *)
Theorem Register_then_Login_not_approved st req hashed sent m st' vp pw sent' :
  Register st req hashed sent = (SuccessResponse m, st') ->
  Login st' vp (login_req (rr_Email req) pw) sent' = ErrorResponse ErrStaffNotApproved.
Proof.
  intros H. unfold Register in H.
  assert (Hc : exists h d id,
    CreateUser st {| cu_Name := rr_Name req; cu_Mobile := rr_Mobile req;
                     cu_Email := rr_Email req; cu_Designation := d;
                     cu_IsAdmin := false; cu_IsApproved := false;
                     cu_PasswordHash := Some h |} = (DbOk id, st')).
  { destruct (GetUserByEmail st (rr_Email req)) as [e | |];
      [destruct (0 <? ID e)%Z; [discriminate H |] | |];
      (destruct hashed as [h |]; [| discriminate H]);
      (destruct (designation_of (rr_Designation req)) as [d |]; [| discriminate H]);
      (destruct (CreateUser st _) as [[id | |] st2] eqn:EC; [| discriminate H | discriminate H]);
      (destruct sent; [| discriminate H]); inversion H; subst; eauto. }
  destruct Hc as (h & d & id & Hc).
  destruct (CreateUser_lookup _ _ _ _ Hc) as [Hg _]. simpl in Hg.
  unfold Login. simpl. rewrite Hg. reflexivity.
Qed.

Lemma Register_then_Login_not_approved_witness :
  Login (snd (Register demo_store
      (register_req "Asha" "9876543213" "asha@lael.in" "staff" "password9") (Some "h9") true))
    plain_verify (login_req "asha@lael.in" "password9") true = ErrorResponse ErrStaffNotApproved.
Proof.
  apply (Register_then_Login_not_approved demo_store
    (register_req "Asha" "9876543213" "asha@lael.in" "staff" "password9") (Some "h9") true
    register_message). vm_compute. reflexivity.
Defined.

(** X8: ForgotPassword answers an unknown email and an existing email whose
    OTP was sent with the same success message; but when sending the OTP
    fails, an existing email gets the internal error 1004 while an unknown
    one still gets the success message, so existence shows. *)
Theorem ForgotPassword_existence_hidden_only_when_sent st e e' u :
  GetUserByEmail st e = ErrNoRows -> GetUserByEmail st e' = DbOk u ->
  (forall b, ForgotPassword st e b = ForgotPassword st e' true) /\
  ForgotPassword st e' false = ErrorResponse ErrInternalServer /\
  ForgotPassword st e false <> ForgotPassword st e' false.
Proof.
  intros H1 H2. unfold ForgotPassword. rewrite H1, H2.
  split; [reflexivity | split; [reflexivity | discriminate]].
Qed.

Lemma ForgotPassword_existence_hidden_only_when_sent_witness :
  ForgotPassword demo_store "nobody@lael.in" false <> ForgotPassword demo_store "priya@lael.in" false.
Proof.
  apply (ForgotPassword_existence_hidden_only_when_sent demo_store "nobody@lael.in"
           "priya@lael.in" priya); reflexivity.
Defined.

(* ----- tokens: RefreshToken, AuthMiddleware, ValidateRequest ----- *)

(** X9: RefreshToken answers an invalid token with session-expired (2003)
    and a valid token of any type other than "refresh" (an access token)
    with 401; it succeeds only for a valid refresh token whose user id is
    found by GetUserByID. *)
Theorem RefreshToken_requires_refresh_claims st VT tok ok :
  (VT tok = None -> RefreshToken st VT tok ok = ErrorResponse ErrSessionExpired) /\
  (forall claims, VT tok = Some claims -> tc_Type claims <> "refresh"%string ->
     RefreshToken st VT tok ok = ErrorResponse ErrUnauthorized) /\
  (forall m, RefreshToken st VT tok ok = SuccessResponse m ->
     exists claims u, VT tok = Some claims /\ tc_Type claims = "refresh"%string /\
       GetUserByID st (tc_UserID claims) = DbOk u /\ ok = true).
Proof.
  unfold RefreshToken. split; [intros ->; reflexivity |]. split.
  - intros claims -> Hty. apply String.eqb_neq in Hty. rewrite Hty. reflexivity.
  - intros m H. destruct (VT tok) as [claims |]; [| discriminate].
    destruct (String.eqb (tc_Type claims) "refresh") eqn:Et; simpl in H; [| discriminate].
    destruct (GetUserByID st (tc_UserID claims)) as [u | |] eqn:Eg; try discriminate.
    destruct ok; [| discriminate]. apply String.eqb_eq in Et.
    exists claims, u. auto.
Qed.

Lemma RefreshToken_requires_refresh_claims_witness :
  RefreshToken demo_store demo_validate "tokA" true = ErrorResponse ErrUnauthorized.
Proof.
  apply (proj1 (proj2 (RefreshToken_requires_refresh_claims demo_store demo_validate "tokA" true))
           (demo_claims "access")); [reflexivity | discriminate].
Defined.

Lemma Split_space_nonempty s : Split_space s <> [].
Proof.
  induction s as [| c s IH]; simpl; [discriminate |].
  destruct (Ascii.eqb c " "%char); [discriminate |].
  destruct (Split_space s); [contradiction | discriminate].
Qed.

Lemma Split_space_no_space s : no_space s = true -> Split_space s = [s].
Proof.
  induction s as [| c s IH]; simpl; [reflexivity |]. unfold no_space. simpl.
  intros H. apply andb_true_iff in H as [Hc Hs].
  destruct (Ascii.eqb c " "%char); [discriminate |]. rewrite IH by exact Hs. reflexivity.
Qed.

Lemma Split_space_single s b : Split_space s = [b] -> s = b /\ no_space b = true.
Proof.
  revert b. induction s as [| c s IH]; intros b H; simpl in H.
  - inversion H; subst. split; reflexivity.
  - destruct (Ascii.eqb c " "%char) eqn:Ec.
    + inversion H as [[H1 H2]]. exfalso. exact (Split_space_nonempty s H2).
    + destruct (Split_space s) as [| p ps] eqn:Es;
        [exfalso; exact (Split_space_nonempty s Es) |].
      inversion H; subst. destruct (IH p eq_refl) as [-> Hp].
      split; [reflexivity |]. unfold no_space in *. simpl. rewrite Ec, Hp. reflexivity.
Qed.

Lemma Split_space_pair s a b :
  Split_space s = [a; b] -> s = (a ++ String " " b)%string /\ no_space b = true.
Proof.
  revert a. induction s as [| c s IH]; intros a H; simpl in H; [inversion H |].
  destruct (Ascii.eqb c " "%char) eqn:Ec.
  - inversion H; subst. destruct (Split_space_single _ _ H2) as [-> Hb].
    apply Ascii.eqb_eq in Ec. subst. auto.
  - destruct (Split_space s) as [| p ps] eqn:Es; [inversion H |].
    inversion H; subst. destruct (IH p eq_refl) as [-> Hb]. auto.
Qed.

Lemma string_app_inj_l (p a b : string) : (p ++ a)%string = (p ++ b)%string -> a = b.
Proof. induction p as [| c p IH]; simpl; intros H; [exact H | injection H; exact IH]. Qed.

Lemma Split_space_Bearer tok : Split_space ("Bearer " ++ tok) = "Bearer"%string :: Split_space tok.
Proof. reflexivity. Qed.

Lemma AuthMiddleware_Next_inv VT h ctx :
  AuthMiddleware VT h = Next ctx ->
  exists tok claims, h = ("Bearer " ++ tok)%string /\ no_space tok = true /\
    VT tok = Some claims /\ tc_Type claims = "access"%string /\
    ctx = {| ctx_user_id := Some (tc_UserID claims); ctx_email := Some (tc_Email claims);
             ctx_is_admin := Some (tc_IsAdmin claims) |}.
Proof.
  unfold AuthMiddleware. intros H.
  destruct (String.eqb h "") ; [discriminate |].
  destruct (Split_space h) as [| p0 [| p1 [| p2 ps]]] eqn:Es; try discriminate.
  destruct (String.eqb p0 "Bearer") eqn:Eb; simpl in H; [| discriminate].
  destruct (VT p1) as [claims |] eqn:Ev; [| discriminate].
  destruct (String.eqb (tc_Type claims) "access") eqn:Et; simpl in H; [| discriminate].
  inversion H; subst ctx. apply String.eqb_eq in Eb, Et. subst p0.
  destruct (Split_space_pair _ _ _ Es) as [-> Hb].
  exists p1, claims. auto.
Qed.

Lemma AuthMiddleware_Next_intro VT tok claims :
  no_space tok = true -> VT tok = Some claims -> tc_Type claims = "access"%string ->
  AuthMiddleware VT ("Bearer " ++ tok) =
    Next {| ctx_user_id := Some (tc_UserID claims); ctx_email := Some (tc_Email claims);
            ctx_is_admin := Some (tc_IsAdmin claims) |}.
Proof.
  intros Hs Hv Ht. unfold AuthMiddleware. simpl String.eqb at 1. cbv iota.
  rewrite Split_space_Bearer, (Split_space_no_space _ Hs). simpl.
  rewrite Hv, Ht. reflexivity.
Qed.

(** X10: AuthMiddleware lets a request through exactly when its
    Authorization header is "Bearer " followed by a token with no space in
    it whose claims are valid and of type "access"; the context it passes on
    holds that token's user id, email and is_admin. *)
Theorem AuthMiddleware_accepts_exactly VT h ctx :
  AuthMiddleware VT h = Next ctx <->
  exists tok claims, h = ("Bearer " ++ tok)%string /\ no_space tok = true /\
    VT tok = Some claims /\ tc_Type claims = "access"%string /\
    ctx = {| ctx_user_id := Some (tc_UserID claims); ctx_email := Some (tc_Email claims);
             ctx_is_admin := Some (tc_IsAdmin claims) |}.
Proof.
  split; [apply AuthMiddleware_Next_inv |].
  intros (tok & claims & -> & Hs & Hv & Ht & ->). apply AuthMiddleware_Next_intro; assumption.
Qed.

Lemma AuthMiddleware_accepts_exactly_witness :
  AuthMiddleware demo_validate "Bearer tokA" =
    Next {| ctx_user_id := Some 2%Z; ctx_email := Some "ravi@lael.in"%string;
            ctx_is_admin := Some false |}.
Proof.
  apply (proj2 (AuthMiddleware_accepts_exactly demo_validate "Bearer tokA" _)).
  exists "tokA"%string, (demo_claims "access"). repeat split.
Defined.

(** X11: access and refresh tokens are not interchangeable: every request
    AuthMiddleware lets through carries a token that RefreshToken rejects
    with 401, and a token RefreshToken accepts is never let through by
    AuthMiddleware. *)
Theorem access_refresh_tokens_separated st VT ok :
  (forall h ctx, AuthMiddleware VT h = Next ctx ->
     exists tok, h = ("Bearer " ++ tok)%string /\
       RefreshToken st VT tok ok = ErrorResponse ErrUnauthorized) /\
  (forall tok m, RefreshToken st VT tok ok = SuccessResponse m ->
     forall h ctx, AuthMiddleware VT h = Next ctx -> h <> ("Bearer " ++ tok)%string).
Proof.
  split.
  - intros h ctx H. destruct (AuthMiddleware_Next_inv _ _ _ H) as (tok & claims & -> & _ & Hv & Ht & _).
    exists tok. split; [reflexivity |]. unfold RefreshToken. rewrite Hv, Ht. reflexivity.
  - intros tok m HR h ctx H ->.
    destruct (AuthMiddleware_Next_inv _ _ _ H) as (tok' & claims & Heq & _ & Hv & Ht & _).
    apply string_app_inj_l in Heq. subst tok'.
    unfold RefreshToken in HR. rewrite Hv, Ht in HR. discriminate HR.
Qed.

Lemma access_refresh_tokens_separated_witness :
  exists tok, "Bearer tokA"%string = ("Bearer " ++ tok)%string /\
    RefreshToken demo_store demo_validate tok true = ErrorResponse ErrUnauthorized.
Proof.
  apply (proj1 (access_refresh_tokens_separated demo_store demo_validate true) _
    {| ctx_user_id := Some 2%Z; ctx_email := Some "ravi@lael.in"%string; ctx_is_admin := Some false |}).
  reflexivity.
Defined.

(** X12: every request that AuthMiddleware lets through passes ApprovedUser
    validation as the token's user, exactly as AuthenticatedUser does: no
    approval state is consulted. AdminUser additionally needs the token's
    is_admin and answers 403 otherwise. *)
Theorem ValidateRequest_after_middleware VT h ctx :
  AuthMiddleware VT h = Next ctx ->
  exists claims,
    ValidateRequest ctx ApprovedUser =
      (Some {| du_ID := tc_UserID claims; du_Email := tc_Email claims;
               du_IsAdmin := tc_IsAdmin claims |}, None) /\
    ValidateRequest ctx AuthenticatedUser = ValidateRequest ctx ApprovedUser /\
    ValidateRequest ctx AdminUser =
      (if tc_IsAdmin claims then ValidateRequest ctx ApprovedUser else (None, Some ErrForbidden)).
Proof.
  intros H. destruct (AuthMiddleware_Next_inv _ _ _ H) as (tok & claims & _ & _ & _ & _ & ->).
  exists claims. simpl. split; [reflexivity | split; [reflexivity |]].
  destruct (tc_IsAdmin claims); reflexivity.
Qed.

Lemma ValidateRequest_after_middleware_witness :
  exists claims,
    ValidateRequest {| ctx_user_id := Some 2%Z; ctx_email := Some "ravi@lael.in"%string;
                       ctx_is_admin := Some false |} ApprovedUser =
      (Some {| du_ID := tc_UserID claims; du_Email := tc_Email claims;
               du_IsAdmin := tc_IsAdmin claims |}, None) /\
    ValidateRequest {| ctx_user_id := Some 2%Z; ctx_email := Some "ravi@lael.in"%string;
                       ctx_is_admin := Some false |} AuthenticatedUser =
    ValidateRequest {| ctx_user_id := Some 2%Z; ctx_email := Some "ravi@lael.in"%string;
                       ctx_is_admin := Some false |} ApprovedUser /\
    ValidateRequest {| ctx_user_id := Some 2%Z; ctx_email := Some "ravi@lael.in"%string;
                       ctx_is_admin := Some false |} AdminUser =
      (if tc_IsAdmin claims then
         ValidateRequest {| ctx_user_id := Some 2%Z; ctx_email := Some "ravi@lael.in"%string;
                            ctx_is_admin := Some false |} ApprovedUser
       else (None, Some ErrForbidden)).
Proof. apply (ValidateRequest_after_middleware demo_validate "Bearer tokA"). reflexivity. Defined.

End AuthFacts.

Module OtpFacts.
Import OtpSvc.

(** C6 (counterexample): an expired OTP submitted with the right code and a
    live OTP submitted with a wrong code get the same response, the
    invalid-OTP code 2002; the expired code 2001 is never produced. *)
Lemma VerifyOTP_expired_and_invalid_indistinguishable :
  fst (VerifyOTPHandler Auth.demo_store one_row 2000 (verify_req "123456") true)
    = Auth.ErrorResponse Auth.ErrInvalidOTP /\
  fst (VerifyOTPHandler Auth.demo_store one_row 500 (verify_req "654321") true)
    = Auth.ErrorResponse Auth.ErrInvalidOTP.
Proof. split; vm_compute; reflexivity. Qed.

(** C6 (amended): OTPSvc.VerifyOTP reports not-found, expired and mismatched
    codes alike as (false, nil), so for a known OTP type the VerifyOTP
    handler answers all three with the same invalid-OTP code 2002. *)
Theorem VerifyOTP_failures_share_code us s now (req : VerifyOTPRequest) tokens_ok ty :
  otp_type_of (vr_OTPType req) = Some ty ->
  (GetLatestOTPByEmail s (vr_Email req) ty = None \/
   exists r, GetLatestOTPByEmail s (vr_Email req) ty = Some r /\
     ((Expiry r < now)%Z \/ Otp r <> vr_OTP req)) ->
  fst (VerifyOTPHandler us s now req tokens_ok) = Auth.ErrorResponse Auth.ErrInvalidOTP.
Proof.
  intros Hty Hcase. unfold VerifyOTPHandler, VerifyOTP. rewrite Hty.
  destruct Hcase as [Hn | (r & Hr & Hc)].
  - rewrite Hn. reflexivity.
  - rewrite Hr. destruct (Expiry r <? now)%Z eqn:Eexp; [reflexivity |].
    destruct Hc as [Hlt | Hne]; [apply Z.ltb_lt in Hlt; congruence |].
    apply String.eqb_neq in Hne. rewrite Hne. reflexivity.
Qed.

Lemma VerifyOTP_failures_share_code_witness :
  fst (VerifyOTPHandler Auth.demo_store one_row 2000 (verify_req "123456") true)
    = Auth.ErrorResponse Auth.ErrInvalidOTP.
Proof.
  apply (VerifyOTP_failures_share_code Auth.demo_store one_row 2000 (verify_req "123456") true
           LaelOtpOtpTypeLogin); [reflexivity |].
  right. exists (otp_row 1 "123456" 10). split; [reflexivity | left; reflexivity].
Defined.

Lemma fold_latest_in email ty (s : list LaelOtp) : forall acc r,
  fold_left (fun acc r =>
    if matches_key email ty r then
      match acc with
      | Some b => if (CreatedOn b <=? CreatedOn r)%Z then Some r else acc
      | None => Some r
      end
    else acc) s acc = Some r ->
  acc = Some r \/ (In r s /\ matches_key email ty r = true).
Proof.
  induction s as [| x s IH]; intros acc r H; simpl in H; [left; exact H |].
  destruct (IH _ _ H) as [Hacc | (Hin & Hm)]; [| right; split; [right |]; assumption].
  destruct (matches_key email ty x) eqn:Em; [| left; exact Hacc].
  destruct acc as [b |].
  - destruct (CreatedOn b <=? CreatedOn x)%Z.
    + inversion Hacc; subst. right. split; [left |]; auto.
    + left. exact Hacc.
  - inversion Hacc; subst. right. split; [left |]; auto.
Qed.

Lemma GetLatestOTPByEmail_spec s email ty r :
  GetLatestOTPByEmail s email ty = Some r -> In r s /\ matches_key email ty r = true.
Proof.
  intros H. destruct (fold_latest_in email ty s None r H) as [Hn | Hr]; [discriminate | exact Hr].
Qed.

Lemma ValidateOTP_marks s id r0 :
  In r0 (ValidateOTP s id) -> ID r0 = id -> IsValidated r0 = true.
Proof.
  unfold ValidateOTP. intros Hin Hid. apply in_map_iff in Hin as (x & <- & _).
  destruct (Nat.eqb (ID x) id) eqn:E; [reflexivity |].
  apply Nat.eqb_neq in E. congruence.
Qed.

Lemma ValidateOTP_unvalidated s id r0 :
  In r0 (ValidateOTP s id) -> IsValidated r0 = false -> ID r0 <> id /\ In r0 s.
Proof.
  unfold ValidateOTP. intros Hin Hv. apply in_map_iff in Hin as (x & <- & Hx).
  destruct (Nat.eqb (ID x) id) eqn:E; [discriminate |].
  apply Nat.eqb_neq in E. auto.
Qed.

(** C7 (counterexample): two unvalidated login OTPs for a@x.com carry the
    same code; verifying it validates the newer one, and a second verify
    with the same code succeeds again, on the older record. *)
Lemma VerifyOTP_same_code_succeeds_twice :
  fst (fst (VerifyOTP two_rows_same_code 30 "a@x.com" "123456" "login")) = true /\
  fst (fst (VerifyOTP (snd (VerifyOTP two_rows_same_code 30 "a@x.com" "123456" "login"))
                      40 "a@x.com" "123456" "login")) = true.
Proof. split; vm_compute; reflexivity. Qed.

(** C7 (amended): a successful verify marks the selected record validated,
    and no later verify selects that record again: a second verify with the
    same code succeeds only through a different, still unvalidated record
    of the same (email, otp_type) that carries the same code. *)
Theorem VerifyOTP_validated_record_not_reused s now now' email code otpType s' :
  VerifyOTP s now email code otpType = ((true, None), s') ->
  exists ty r, otp_type_of otpType = Some ty /\ GetLatestOTPByEmail s email ty = Some r /\
    Otp r = code /\
    (forall r0, In r0 s' -> ID r0 = ID r -> IsValidated r0 = true) /\
    (forall res s'', VerifyOTP s' now' email code otpType = (res, s'') -> fst res = true ->
       exists r', GetLatestOTPByEmail s' email ty = Some r' /\ ID r' <> ID r /\
         In r' s /\ IsValidated r' = false /\ Otp r' = code).
Proof.
  intros H. unfold VerifyOTP in H.
  destruct (otp_type_of otpType) as [ty |] eqn:Hty; [| discriminate].
  destruct (GetLatestOTPByEmail s email ty) as [r |] eqn:Hr; [| discriminate].
  destruct (Expiry r <? now)%Z; [discriminate |].
  destruct (String.eqb (Otp r) code) eqn:Ec; simpl in H; [| discriminate].
  inversion H; subst s'. apply String.eqb_eq in Ec.
  exists ty, r. split; [reflexivity | split; [exact Hr | split; [exact Ec | split]]].
  - intros r0 Hin Hid. eapply ValidateOTP_marks; eauto.
  - intros res s'' H2 Hres. unfold VerifyOTP in H2. rewrite Hty in H2.
    destruct (GetLatestOTPByEmail (ValidateOTP s (ID r)) email ty) as [r' |] eqn:Hr';
      [| inversion H2; subst; discriminate].
    destruct (GetLatestOTPByEmail_spec _ _ _ _ Hr') as [Hin Hm].
    unfold matches_key in Hm. apply andb_true_iff in Hm as [_ Hv].
    apply negb_true_iff in Hv.
    destruct (ValidateOTP_unvalidated _ _ _ Hin Hv) as [Hne Hins].
    destruct (Expiry r' <? now')%Z; [inversion H2; subst; discriminate |].
    destruct (String.eqb (Otp r') code) eqn:Ec'; simpl in H2;
      [| inversion H2; subst; discriminate].
    apply String.eqb_eq in Ec'.
    exists r'. auto.
Qed.

Lemma VerifyOTP_validated_record_not_reused_witness :
  exists ty r, otp_type_of "login" = Some ty /\ GetLatestOTPByEmail one_row "a@x.com" ty = Some r /\
    Otp r = "123456" /\
    (forall r0, In r0 (snd (VerifyOTP one_row 30 "a@x.com" "123456" "login")) ->
       ID r0 = ID r -> IsValidated r0 = true) /\
    (forall res s'', VerifyOTP (snd (VerifyOTP one_row 30 "a@x.com" "123456" "login"))
                       40 "a@x.com" "123456" "login" = (res, s'') -> fst res = true ->
       exists r', GetLatestOTPByEmail (snd (VerifyOTP one_row 30 "a@x.com" "123456" "login"))
                    "a@x.com" ty = Some r' /\ ID r' <> ID r /\
         In r' one_row /\ IsValidated r' = false /\ Otp r' = "123456").
Proof.
  apply (VerifyOTP_validated_record_not_reused one_row 30 40 "a@x.com" "123456" "login"
           (snd (VerifyOTP one_row 30 "a@x.com" "123456" "login"))).
  vm_compute. reflexivity.
Defined.

(* ----- generateOTP ----- *)

Lemma digit_char_code d : (0 <= d < 10)%Z ->
  Ascii.nat_of_ascii (digit_char d) = (48 + Z.to_nat d)%nat.
Proof. intros Hd. unfold digit_char. apply Ascii.nat_ascii_embedding. lia. Qed.

Lemma digits_aux_spec f : forall n acc, (0 <= n)%Z -> (Z.to_nat n < f)%nat ->
  exists d, digits_aux f n acc = d ++ acc /\ d <> [] /\
    Forall (fun c => 48 <= Ascii.nat_of_ascii c <= 57)%nat d /\
    decimal_value d = n /\
    (forall k, (1 <= k)%nat -> (n < 10 ^ Z.of_nat k)%Z -> (length d <= k)%nat).
Proof.
  induction f as [| f IH]; intros n acc Hn Hf; [lia |].
  assert (Hm : (0 <= n mod 10 < 10)%Z) by (apply Z.mod_pos_bound; lia).
  pose proof (digit_char_code _ Hm) as Hc.
  simpl. destruct (n <? 10)%Z eqn:E.
  - apply Z.ltb_lt in E. exists [digit_char (n mod 10)].
    split; [reflexivity |]. split; [discriminate |].
    split; [constructor; [rewrite Hc; lia | constructor] |]. split.
    + unfold decimal_value. simpl. rewrite Hc, Nat2Z.inj_add, Z2Nat.id by lia.
      rewrite Z.mod_small by lia. lia.
    + intros k Hk _. simpl. lia.
  - apply Z.ltb_ge in E.
    assert (Hlt : (n / 10 < n)%Z) by (apply Z.div_lt; lia).
    destruct (IH (n / 10)%Z (digit_char (n mod 10) :: acc)) as (d & Heq & Hne & Hd & Hv & Hl);
      [apply Z.div_pos; lia | lia |].
    exists (d ++ [digit_char (n mod 10)]).
    split; [rewrite Heq, <- app_assoc; reflexivity |].
    split; [intros Hx; apply app_eq_nil in Hx as [_ Hx]; discriminate |].
    split; [apply Forall_app; split; [exact Hd | constructor; [rewrite Hc; lia | constructor]] |].
    split.
    + unfold decimal_value in Hv |- *. rewrite fold_left_app. simpl. rewrite Hv, Hc.
      rewrite Nat2Z.inj_add, Z2Nat.id by lia. pose proof (Z_div_mod_eq_full n 10). lia.
    + intros k Hk Hk'. rewrite length_app. simpl.
      destruct k as [| [| k]]; [lia | cbn in Hk'; lia |].
      rewrite Nat2Z.inj_succ, Z.pow_succ_r in Hk' by lia.
      assert (length d <= S k)%nat; [| lia].
      apply Hl; [lia |]. apply Z.div_lt_upper_bound; lia.
Qed.

Lemma decimal_value_zeros m d : decimal_value (repeat "0"%char m ++ d) = decimal_value d.
Proof.
  unfold decimal_value. rewrite fold_left_app. f_equal.
  induction m as [| m IH]; simpl; [reflexivity | exact IH].
Qed.

Lemma Forall_repeat_zero m : Forall (fun c => 48 <= Ascii.nat_of_ascii c <= 57)%nat (repeat "0"%char m).
Proof. induction m as [| m IH]; simpl; [exact (List.Forall_nil _) | apply List.Forall_cons; [change (Ascii.nat_of_ascii "0"%char) with 48; lia | exact IH]]. Qed.

Lemma fmt_zero_pad_spec w n : (1 <= w)%nat -> (0 <= n < 10 ^ Z.of_nat w)%Z ->
  length (fmt_zero_pad w n) = w /\
  Forall (fun c => 48 <= Ascii.nat_of_ascii c <= 57)%nat (fmt_zero_pad w n) /\
  decimal_value (fmt_zero_pad w n) = n.
Proof.
  intros Hw Hn. unfold fmt_zero_pad, decimal.
  destruct (digits_aux_spec (S (Z.to_nat n)) n [] ltac:(lia) ltac:(lia))
    as (d & Heq & _ & Hd & Hv & Hl).
  rewrite Heq, app_nil_r. specialize (Hl w Hw ltac:(lia)).
  split; [rewrite length_app, repeat_length; lia |].
  split; [apply Forall_app; split; [apply Forall_repeat_zero | exact Hd] |].
  rewrite decimal_value_zeros. exact Hv.
Qed.

Lemma length_string_of_list_ascii l : String.length (String.string_of_list_ascii l) = length l.
Proof. induction l as [| c l IH]; simpl; [reflexivity | rewrite IH; reflexivity]. Qed.

Lemma generateOTP_spec L randInt n :
  randInt (10 ^ (if (L <=? 0)%Z then 6 else L))%Z = Some n ->
  (0 <= n < 10 ^ (if (L <=? 0)%Z then 6 else L))%Z ->
  exists otp, generateOTP L randInt = Some otp /\
    String.length otp = Z.to_nat (if (L <=? 0)%Z then 6 else L) /\
    Forall (fun c => 48 <= Ascii.nat_of_ascii c <= 57)%nat (String.list_ascii_of_string otp) /\
    decimal_value (String.list_ascii_of_string otp) = n.
Proof.
  intros Hr Hn. unfold generateOTP. rewrite Hr.
  assert (Hw : (1 <= (if (L <=? 0)%Z then 6 else L))%Z)
    by (destruct (L <=? 0)%Z eqn:E; [lia | apply Z.leb_gt in E; lia]).
  destruct (fmt_zero_pad_spec (Z.to_nat (if (L <=? 0)%Z then 6 else L)) n)
    as (Hlen & Hd & Hv); [lia | rewrite Z2Nat.id by lia; exact Hn |].
  eexists. split; [reflexivity |].
  rewrite length_string_of_list_ascii, String.list_ascii_of_string_of_list_ascii. auto.
Qed.

(** X13: when rand.Int draws n below 10^w, generateOTP returns a string of
    exactly w characters, all decimal digits, that reads back as n, where w
    is the configured OTPLength, or 6 when that is not positive. *)
Theorem generateOTP_digits L randInt n :
  randInt (10 ^ (if (L <=? 0)%Z then 6 else L))%Z = Some n ->
  (0 <= n < 10 ^ (if (L <=? 0)%Z then 6 else L))%Z ->
  exists otp, generateOTP L randInt = Some otp /\
    String.length otp = Z.to_nat (if (L <=? 0)%Z then 6 else L) /\
    Forall (fun c => 48 <= Ascii.nat_of_ascii c <= 57)%nat (String.list_ascii_of_string otp) /\
    decimal_value (String.list_ascii_of_string otp) = n.
Proof. apply generateOTP_spec. Qed.

Lemma generateOTP_digits_witness :
  exists otp, generateOTP 0 (fun _ => Some 42%Z) = Some otp /\
    String.length otp = Z.to_nat (if (0 <=? 0)%Z then 6 else 0) /\
    Forall (fun c => 48 <= Ascii.nat_of_ascii c <= 57)%nat (String.list_ascii_of_string otp) /\
    decimal_value (String.list_ascii_of_string otp) = 42%Z.
Proof. apply (generateOTP_digits 0 (fun _ => Some 42%Z) 42); [reflexivity | simpl; lia]. Defined.

(* ----- GetLatestOTPByEmail as a maximum ----- *)

Lemma GetLatest_nil email ty : GetLatestOTPByEmail [] email ty = None.
Proof. reflexivity. Qed.

Lemma GetLatest_snoc s x email ty :
  GetLatestOTPByEmail (s ++ [x]) email ty =
  if matches_key email ty x then
    match GetLatestOTPByEmail s email ty with
    | Some b => if (CreatedOn b <=? CreatedOn x)%Z then Some x else Some b
    | None => Some x
    end
  else GetLatestOTPByEmail s email ty.
Proof.
  unfold GetLatestOTPByEmail at 1. rewrite fold_left_app. simpl.
  fold (GetLatestOTPByEmail s email ty).
  destruct (matches_key email ty x); [destruct (GetLatestOTPByEmail s email ty) |]; reflexivity.
Qed.

Lemma GetLatest_none s email ty :
  GetLatestOTPByEmail s email ty = None -> forall y, In y s -> matches_key email ty y = false.
Proof.
  induction s as [| x s IH] using rev_ind; intros H y Hy; [destruct Hy |].
  rewrite GetLatest_snoc in H. destruct (matches_key email ty x) eqn:Em.
  - destruct (GetLatestOTPByEmail s email ty); [destruct (_ <=? _)%Z |]; discriminate.
  - apply in_app_or in Hy as [Hy | [<- | []]]; [apply IH; assumption | exact Em].
Qed.

Lemma GetLatest_max s email ty b :
  GetLatestOTPByEmail s email ty = Some b ->
  forall y, In y s -> matches_key email ty y = true -> (CreatedOn y <= CreatedOn b)%Z.
Proof.
  revert b. induction s as [| x s IH] using rev_ind; intros b H y Hy Hmy; [destruct Hy |].
  rewrite GetLatest_snoc in H. apply in_app_or in Hy as [Hy | [-> | []]].
  - destruct (matches_key email ty x) eqn:Em; [| exact (IH b H y Hy Hmy)].
    destruct (GetLatestOTPByEmail s email ty) as [b0 |] eqn:Eb.
    + pose proof (IH b0 eq_refl y Hy Hmy).
      destruct (CreatedOn b0 <=? CreatedOn x)%Z eqn:Ele; inversion H; subst;
        [apply Z.leb_le in Ele |]; lia.
    + rewrite (GetLatest_none s email ty Eb y Hy) in Hmy. discriminate.
  - rewrite Hmy in H. destruct (GetLatestOTPByEmail s email ty) as [b0 |].
    + destruct (CreatedOn b0 <=? CreatedOn y)%Z eqn:Ele; inversion H; subst;
        [lia | apply Z.leb_gt in Ele; lia].
    + inversion H; subst. lia.
Qed.

Lemma GetLatest_decomp email ty s : forall r,
  GetLatestOTPByEmail s email ty = Some r ->
  exists pre post, s = pre ++ r :: post /\ matches_key email ty r = true /\
    (forall y, In y pre -> matches_key email ty y = true -> (CreatedOn y <= CreatedOn r)%Z) /\
    (forall y, In y post -> matches_key email ty y = true -> (CreatedOn y < CreatedOn r)%Z).
Proof.
  induction s as [| x s IH] using rev_ind; intros r H; [discriminate |].
  rewrite GetLatest_snoc in H. destruct (matches_key email ty x) eqn:Em.
  - destruct (GetLatestOTPByEmail s email ty) as [b |] eqn:Eb.
    + destruct (CreatedOn b <=? CreatedOn x)%Z eqn:Ele; inversion H; subst r.
      * exists s, []. split; [reflexivity |]. split; [exact Em |]. split; [| intros y []].
        intros y Hy Hmy. pose proof (GetLatest_max s email ty b Eb y Hy Hmy).
        apply Z.leb_le in Ele. lia.
      * destruct (IH b eq_refl) as (pre & post & -> & Hm & Hpre & Hpost).
        exists pre, (post ++ [x]). split; [rewrite <- app_assoc; reflexivity |].
        split; [exact Hm |]. split; [exact Hpre |].
        intros y Hy Hmy. apply in_app_or in Hy as [Hy | [<- | []]]; [auto |].
        apply Z.leb_gt in Ele. exact Ele.
    + inversion H; subst r. exists s, []. split; [reflexivity |]. split; [exact Em |].
      split; [| intros y []].
      intros y Hy Hmy. rewrite (GetLatest_none s email ty Eb y Hy) in Hmy. discriminate.
  - destruct (IH r H) as (pre & post & -> & Hm & Hpre & Hpost).
    exists pre, (post ++ [x]). split; [rewrite <- app_assoc; reflexivity |].
    split; [exact Hm |]. split; [exact Hpre |].
    intros y Hy Hmy. apply in_app_or in Hy as [Hy | [<- | []]]; [auto | congruence].
Qed.

Lemma GetLatest_of_decomp email ty pre r post :
  matches_key email ty r = true ->
  (forall y, In y pre -> matches_key email ty y = true -> (CreatedOn y <= CreatedOn r)%Z) ->
  (forall y, In y post -> matches_key email ty y = true -> (CreatedOn y < CreatedOn r)%Z) ->
  GetLatestOTPByEmail (pre ++ r :: post) email ty = Some r.
Proof.
  intros Hm Hpre. induction post as [| x post IH] using rev_ind; intros Hpost.
  - rewrite GetLatest_snoc, Hm.
    destruct (GetLatestOTPByEmail pre email ty) as [b |] eqn:Eb; [| reflexivity].
    destruct (GetLatestOTPByEmail_spec _ _ _ _ Eb) as [Hin Hmb].
    rewrite (proj2 (Z.leb_le _ _) (Hpre b Hin Hmb)). reflexivity.
  - replace (pre ++ r :: post ++ [x]) with ((pre ++ r :: post) ++ [x])
      by (rewrite <- app_assoc; reflexivity).
    rewrite GetLatest_snoc, IH by (intros y Hy; apply Hpost, in_or_app; left; exact Hy).
    destruct (matches_key email ty x) eqn:Emx; [| reflexivity].
    pose proof (Hpost x (in_or_app post [x] x (or_intror (or_introl eq_refl))) Emx).
    rewrite (proj2 (Z.leb_gt _ _)) by lia. reflexivity.
Qed.

Lemma GetLatest_filter (p : LaelOtp -> bool) s email ty r :
  GetLatestOTPByEmail s email ty = Some r -> p r = true ->
  GetLatestOTPByEmail (List.filter p s) email ty = Some r.
Proof.
  intros H Hp. destruct (GetLatest_decomp email ty s r H) as (pre & post & -> & Hm & Hpre & Hpost).
  rewrite List.filter_app. simpl. rewrite Hp.
  apply GetLatest_of_decomp; [exact Hm | |];
    intros y Hy; apply List.filter_In in Hy as [Hy _]; auto.
Qed.


Lemma GetLatest_map (f : LaelOtp -> LaelOtp) s email ty :
  (forall r, matches_key email ty (f r) = matches_key email ty r) ->
  (forall r, CreatedOn (f r) = CreatedOn r) ->
  GetLatestOTPByEmail (map f s) email ty = option_map f (GetLatestOTPByEmail s email ty).
Proof.
  intros Hm Hc. unfold GetLatestOTPByEmail. change None with (option_map f None) at 1.
  generalize (@None LaelOtp). induction s as [| x s IH]; intros acc; simpl; [reflexivity |].
  rewrite Hm. destruct (matches_key email ty x); [| apply IH].
  destruct acc as [b |]; simpl; [| apply (IH (Some x))].
  rewrite !Hc. destruct (CreatedOn b <=? CreatedOn x)%Z; [apply (IH (Some x)) | apply (IH (Some b))].
Qed.

Lemma map_filter_comm {A} (f : A -> A) (p : A -> bool) l :
  (forall x, p (f x) = p x) -> map f (List.filter p l) = List.filter p (map f l).
Proof.
  intros Hp. induction l as [| x l IH]; simpl; [reflexivity |].
  rewrite Hp. destruct (p x); simpl; [f_equal |]; exact IH.
Qed.


(* ----- GenerateAndSendOTP ----- *)

(** X14: GenerateAndSendOTP either leaves the OTP table as it was and
    reports an error, or appends exactly one row: a fresh id above all
    existing ones, the given email and a valid OTP type, not validated,
    retry count 0, created now, expiring OTPExpiration seconds later, with a
    code of at most 6 characters. *)
Theorem GenerateAndSendOTP_store_shape s now cfg randInt email_ok email name otpType :
  (snd (GenerateAndSendOTP s now cfg randInt email_ok email name otpType) = s /\
   fst (GenerateAndSendOTP s now cfg randInt email_ok email name otpType) <> None) \/
  exists r, snd (GenerateAndSendOTP s now cfg randInt email_ok email name otpType) = s ++ [r] /\
    ID r = next_otp_id s /\ Email r = email /\ otp_type_of otpType = Some (OtpType r) /\
    IsValidated r = false /\ RetryCount r = 0%Z /\ CreatedOn r = now /\
    Expiry r = (now + OTPExpiration cfg)%Z /\ (String.length (Otp r) <= 6)%nat.
Proof.
  unfold GenerateAndSendOTP.
  destruct (generateOTP (OTPLength cfg) randInt) as [otp |]; [| left; split; [reflexivity | discriminate]].
  destruct (otp_type_of otpType) as [ty |] eqn:Ety; [| left; split; [reflexivity | discriminate]].
  unfold CreateOTP. cbn [co_Otp].
  destruct (Nat.ltb 6 (String.length otp)) eqn:El; [left; split; [reflexivity | discriminate] |].
  right. eexists. split; [destruct email_ok; reflexivity |].
  cbn. apply Nat.ltb_ge in El. repeat split; assumption.
Qed.



(** X16: with OTPLength above 6 every generated code is longer than the
    varchar(6) otp column, so GenerateAndSendOTP fails with "failed to store
    OTP" and stores nothing. *)
Theorem GenerateAndSendOTP_long_otp_not_stored s now cfg randInt email_ok email name otpType ty n :
  otp_type_of otpType = Some ty -> (6 < OTPLength cfg)%Z ->
  randInt (10 ^ OTPLength cfg)%Z = Some n -> (0 <= n < 10 ^ OTPLength cfg)%Z ->
  GenerateAndSendOTP s now cfg randInt email_ok email name otpType =
    (Some "failed to store OTP"%string, s).
Proof.
  intros Hty HL Hr Hn.
  assert (Hif : (OTPLength cfg <=? 0)%Z = false) by (apply Z.leb_gt; lia).
  destruct (generateOTP_spec (OTPLength cfg) randInt n) as (otp & Hg & Hlen & _);
    [rewrite Hif; exact Hr | rewrite Hif; exact Hn |].
  rewrite Hif in Hlen.
  unfold GenerateAndSendOTP, CreateOTP. rewrite Hg, Hty. cbn [co_Otp].
  rewrite (proj2 (Nat.ltb_lt _ _)) by lia. reflexivity.
Qed.

Lemma GenerateAndSendOTP_long_otp_not_stored_witness :
  GenerateAndSendOTP [] 20 {| OTPLength := 7; OTPExpiration := 300 |}
    (fun _ => Some 1234567%Z) true "a@x.com" "A" "login" = (Some "failed to store OTP"%string, []).
Proof.
  apply (GenerateAndSendOTP_long_otp_not_stored [] 20 {| OTPLength := 7; OTPExpiration := 300 |}
           (fun _ => Some 1234567%Z) true "a@x.com" "A" "login" LaelOtpOtpTypeLogin 1234567);
    [reflexivity | simpl; lia | reflexivity | simpl; lia].
Defined.

(* ----- retries and cleanup ----- *)

(** X17: VerifyOTP never reads retry_count: after IncrementRetryCount on
    any row, every verify gives the same answer as before, so failed
    attempts never lock an OTP. *)
Theorem VerifyOTP_ignores_retry_count s id now email otp otpType :
  fst (VerifyOTP (IncrementRetryCount s id) now email otp otpType) =
  fst (VerifyOTP s now email otp otpType).
Proof.
  unfold VerifyOTP, IncrementRetryCount.
  destruct (otp_type_of otpType) as [ty |]; [| reflexivity].
  rewrite GetLatest_map by (intros r; destruct (Nat.eqb (ID r) id); reflexivity).
  destruct (GetLatestOTPByEmail s email ty) as [r |]; [| reflexivity].
  cbn [option_map].
  destruct (Nat.eqb (ID r) id); cbn [bump_retry Expiry Otp];
    (destruct (Expiry r <? now)%Z; [reflexivity |]);
    destruct (String.eqb (Otp r) otp); reflexivity.
Qed.

(** X18: CleanupExpiredOTPs at a time no later than a successful verify
    does not change that verify: on the cleaned table it succeeds too, and
    leaves exactly the cleaned form of the table it left before. *)
Theorem CleanupExpiredOTPs_preserves_verify s now tc email otp otpType s' :
  VerifyOTP s now email otp otpType = ((true, None), s') -> (tc <= now)%Z ->
  VerifyOTP (snd (CleanupExpiredOTPs s tc)) now email otp otpType =
    ((true, None), snd (CleanupExpiredOTPs s' tc)).
Proof.
  intros H Htc. unfold VerifyOTP in H |- *.
  destruct (otp_type_of otpType) as [ty |]; [| discriminate].
  destruct (GetLatestOTPByEmail s email ty) as [r |] eqn:Hr; [| discriminate].
  destruct (Expiry r <? now)%Z eqn:Ee; [discriminate |].
  destruct (String.eqb (Otp r) otp) eqn:Eo; simpl in H; [| discriminate].
  inversion H; subst s'. clear H. simpl. unfold DeleteExpiredOTP.
  rewrite (GetLatest_filter _ s email ty r Hr)
    by (apply negb_true_iff, Z.ltb_ge; apply Z.ltb_ge in Ee; lia).
  rewrite Ee, Eo. simpl. f_equal. unfold ValidateOTP.
  apply map_filter_comm. intros x. destruct (Nat.eqb (ID x) (ID r)); reflexivity.
Qed.

Lemma CleanupExpiredOTPs_preserves_verify_witness :
  VerifyOTP (snd (CleanupExpiredOTPs two_rows_same_code 15)) 30 "a@x.com" "123456" "login" =
    ((true, None), snd (CleanupExpiredOTPs (snd (VerifyOTP two_rows_same_code 30 "a@x.com" "123456" "login")) 15)).
Proof.
  apply (CleanupExpiredOTPs_preserves_verify two_rows_same_code 30 15 "a@x.com" "123456" "login");
    [vm_compute; reflexivity | lia].
Defined.

(* ----- ResetPassword and the VerifyOTP handler ----- *)

Lemma find_map_same {A} (f : A -> bool) (g : A -> A) l :
  (forall x, f (g x) = f x) -> List.find f (map g l) = option_map g (List.find f l).
Proof.
  intros Hf. induction l as [| x l IH]; simpl; [reflexivity |].
  rewrite Hf. destruct (f x); [reflexivity | exact IH].
Qed.

Lemma UpdateUserPassword_lookup us h user us2 e :
  Auth.UpdateUserPassword us {| Auth.up_PasswordHash := Some h; Auth.up_ID := Auth.ID user |} =
    (Auth.DbOk tt, us2) ->
  Auth.GetUserByEmail us e = Auth.DbOk user ->
  Auth.GetUserByEmail us2 e = Auth.DbOk (Auth.set_password_hash (Some h) user).
Proof.
  unfold Auth.UpdateUserPassword, Auth.GetUserByEmail. intros H Hu.
  destruct (Auth.available us) eqn:Ea; simpl in H, Hu; [| discriminate].
  inversion H; subst us2. simpl. rewrite ?Ea. simpl.
  rewrite find_map_same by (intros x; destruct (Z.eqb (Auth.ID x) (Auth.ID user)); reflexivity).
  destruct (List.find _ (Auth.users us)) as [u |] eqn:Ef; [| discriminate].
  inversion Hu; subst u. simpl. rewrite Z.eqb_refl. reflexivity.
Qed.

(** X19: a successful ResetPassword implies that the latest unvalidated
    forgot_password OTP of the email existed, had not expired and carried
    the submitted code; that it is now marked validated; that the password
    hash came from HashPassword; and that the user row found by the email now
    holds that hash. *)
Theorem ResetPassword_success_spec us s now req hashed m us' s' :
  ResetPassword us s now req hashed = (Auth.SuccessResponse m, us', s') ->
  exists r h user,
    GetLatestOTPByEmail s (rp_Email req) LaelOtpOtpTypeForgotPassword = Some r /\
    (now <= Expiry r)%Z /\ Otp r = rp_OTP req /\ s' = ValidateOTP s (ID r) /\
    hashed = Some h /\ Auth.GetUserByEmail us (rp_Email req) = Auth.DbOk user /\
    Auth.GetUserByEmail us' (rp_Email req) = Auth.DbOk (Auth.set_password_hash (Some h) user).
Proof.
  intros H. unfold ResetPassword, VerifyOTP in H.
  assert (Ht : otp_type_of "forgot_password" = Some LaelOtpOtpTypeForgotPassword) by reflexivity.
  rewrite Ht in H.
  destruct (GetLatestOTPByEmail s (rp_Email req) LaelOtpOtpTypeForgotPassword) as [r |] eqn:Hr;
    simpl in H; [| discriminate].
  destruct (Expiry r <? now)%Z eqn:Ee; simpl in H; [discriminate |].
  destruct (String.eqb (Otp r) (rp_OTP req)) eqn:Eo; simpl in H; [| discriminate].
  destruct (Auth.GetUserByEmail us (rp_Email req)) as [user | |] eqn:Hu; try discriminate.
  destruct hashed as [h |]; [| discriminate].
  destruct (Auth.UpdateUserPassword us _) as [[[] | |] us2] eqn:Eup; try discriminate.
  inversion H; subst us' s'.
  exists r, h, user. apply Z.ltb_ge in Ee. apply String.eqb_eq in Eo.
  repeat split; try assumption.
  exact (UpdateUserPassword_lookup _ _ _ _ _ Eup Hu).
Qed.

Lemma ResetPassword_success_spec_witness :
  exists r h user,
    GetLatestOTPByEmail
      [{| ID := 1; Mobile := ""; Email := "priya@lael.in"; Otp := "424242"; Expiry := 1000;
          IsValidated := false; OtpType := LaelOtpOtpTypeForgotPassword; RetryCount := 0;
          CreatedOn := 10 |}] "priya@lael.in" LaelOtpOtpTypeForgotPassword = Some r /\
    (30 <= Expiry r)%Z /\ Otp r = "424242"%string /\
    snd (ResetPassword Auth.demo_store
      [{| ID := 1; Mobile := ""; Email := "priya@lael.in"; Otp := "424242"; Expiry := 1000;
          IsValidated := false; OtpType := LaelOtpOtpTypeForgotPassword; RetryCount := 0;
          CreatedOn := 10 |}] 30
      {| rp_Email := "priya@lael.in"; rp_OTP := "424242"; rp_NewPassword := "new" |} (Some "h2")) =
    ValidateOTP
      [{| ID := 1; Mobile := ""; Email := "priya@lael.in"; Otp := "424242"; Expiry := 1000;
          IsValidated := false; OtpType := LaelOtpOtpTypeForgotPassword; RetryCount := 0;
          CreatedOn := 10 |}] (ID r) /\
    Some "h2"%string = Some h /\ Auth.GetUserByEmail Auth.demo_store "priya@lael.in" = Auth.DbOk user /\
    Auth.GetUserByEmail (snd (fst (ResetPassword Auth.demo_store
      [{| ID := 1; Mobile := ""; Email := "priya@lael.in"; Otp := "424242"; Expiry := 1000;
          IsValidated := false; OtpType := LaelOtpOtpTypeForgotPassword; RetryCount := 0;
          CreatedOn := 10 |}] 30
      {| rp_Email := "priya@lael.in"; rp_OTP := "424242"; rp_NewPassword := "new" |} (Some "h2"))))
      "priya@lael.in" = Auth.DbOk (Auth.set_password_hash (Some h) user).
Proof.
  apply (ResetPassword_success_spec Auth.demo_store
      [{| ID := 1; Mobile := ""; Email := "priya@lael.in"; Otp := "424242"; Expiry := 1000;
          IsValidated := false; OtpType := LaelOtpOtpTypeForgotPassword; RetryCount := 0;
          CreatedOn := 10 |}] 30
      {| rp_Email := "priya@lael.in"; rp_OTP := "424242"; rp_NewPassword := "new" |} (Some "h2")
      "Password reset successfully").
  vm_compute. reflexivity.
Defined.

(** X20: ResetPassword answers 2002 and changes nothing when the email has
    no unvalidated forgot_password OTP (an OTP of another type does not
    count); after a successful OTP check for an email with no user it
    answers 3000, with the OTP already consumed. *)
Theorem ResetPassword_rejections us s now req hashed :
  (GetLatestOTPByEmail s (rp_Email req) LaelOtpOtpTypeForgotPassword = None ->
     ResetPassword us s now req hashed = (Auth.ErrorResponse Auth.ErrInvalidOTP, us, s)) /\
  (forall s', VerifyOTP s now (rp_Email req) (rp_OTP req) "forgot_password" = ((true, None), s') ->
     Auth.GetUserByEmail us (rp_Email req) = Auth.ErrNoRows ->
     ResetPassword us s now req hashed = (Auth.ErrorResponse Auth.ErrUserNotFound, us, s')).
Proof.
  split.
  - intros H. unfold ResetPassword, VerifyOTP.
    assert (Ht : otp_type_of "forgot_password" = Some LaelOtpOtpTypeForgotPassword) by reflexivity.
    rewrite Ht.
    rewrite H. reflexivity.
  - intros s' H1 H2. unfold ResetPassword. rewrite H1. simpl. rewrite H2. reflexivity.
Qed.

Lemma ResetPassword_rejections_witness :
  ResetPassword Auth.demo_store one_row 30
    {| rp_Email := "a@x.com"; rp_OTP := "123456"; rp_NewPassword := "new" |} (Some "h2") =
  (Auth.ErrorResponse Auth.ErrInvalidOTP, Auth.demo_store, one_row).
Proof.
  apply (proj1 (ResetPassword_rejections Auth.demo_store one_row 30
    {| rp_Email := "a@x.com"; rp_OTP := "123456"; rp_NewPassword := "new" |} (Some "h2"))).
  reflexivity.
Defined.

(** X21: once VerifyOTP succeeds, the VerifyOTP handler issues tokens to
    whatever user the email finds, without looking at its approval or
    status; an email with no user gets 3000, with the OTP already
    consumed. *)
Theorem VerifyOTPHandler_ignores_approval us s now req s' :
  VerifyOTP s now (vr_Email req) (vr_OTP req) (vr_OTPType req) = ((true, None), s') ->
  (forall u, Auth.GetUserByEmail us (vr_Email req) = Auth.DbOk u ->
     VerifyOTPHandler us s now req true = (Auth.SuccessResponse "OTP verified successfully", s')) /\
  (Auth.GetUserByEmail us (vr_Email req) = Auth.ErrNoRows ->
     VerifyOTPHandler us s now req true = (Auth.ErrorResponse Auth.ErrUserNotFound, s')).
Proof.
  intros H. unfold VerifyOTPHandler. rewrite H. simpl.
  split; [intros u Hu | intros Hu]; rewrite Hu; reflexivity.
Qed.

Lemma VerifyOTPHandler_ignores_approval_witness :
  VerifyOTPHandler Auth.demo_store
    [{| ID := 1; Mobile := ""; Email := "priya@lael.in"; Otp := "424242"; Expiry := 1000;
        IsValidated := false; OtpType := LaelOtpOtpTypeRegistration; RetryCount := 0;
        CreatedOn := 10 |}] 30
    {| vr_Email := "priya@lael.in"; vr_OTP := "424242"; vr_OTPType := "registration" |} true =
  (Auth.SuccessResponse "OTP verified successfully",
   snd (VerifyOTP
    [{| ID := 1; Mobile := ""; Email := "priya@lael.in"; Otp := "424242"; Expiry := 1000;
        IsValidated := false; OtpType := LaelOtpOtpTypeRegistration; RetryCount := 0;
        CreatedOn := 10 |}] 30 "priya@lael.in" "424242" "registration")).
Proof.
  apply (proj1 (VerifyOTPHandler_ignores_approval Auth.demo_store
    [{| ID := 1; Mobile := ""; Email := "priya@lael.in"; Otp := "424242"; Expiry := 1000;
        IsValidated := false; OtpType := LaelOtpOtpTypeRegistration; RetryCount := 0;
        CreatedOn := 10 |}] 30
    {| vr_Email := "priya@lael.in"; vr_OTP := "424242"; vr_OTPType := "registration" |} _
    ltac:(vm_compute; reflexivity)) Auth.priya).
  reflexivity.
Defined.

End OtpFacts.

Module PatientFacts.
Import PatientSvc.

Lemma isValidMobile_nonempty m : isValidMobile m = true -> m <> ""%string.
Proof. intros H ->. discriminate H. Qed.

Lemma wrap_int32_small z : (- 2 ^ 31 <= z < 2 ^ 31)%Z -> wrap_int32 z = z.
Proof. intros H. unfold wrap_int32. rewrite Z.mod_small by lia. lia. Qed.

(** C8 (counterexample): a revisit whose opd_id exists but belongs to mobile
    7777777777, requested with mobile 9999999999, and a revisit whose opd_id
    has no row get the same service error 4005: the mismatch is not
    distinguished from not-found. *)
Lemma RegisterPatient_mismatch_same_as_not_found :
  fst (RegisterPatient patient_store (revisit_req "9999999999" "LAEL7f3k" 30) "LAELnew")
    = (None, HandleServiceErr "4005" "INTERNAL") /\
  fst (RegisterPatient patient_store (revisit_req "9999999999" "LAELnone" 30) "LAELnew")
    = (None, HandleServiceErr "4005" "INTERNAL").
Proof. split; vm_compute; reflexivity. Qed.

(** C8 (amended): for a revisit with a valid mobile and a non-empty opd_id,
    both an opd_id with no visit row and an opd_id whose latest visit has a
    different stored mobile fail with the same service error 4005 ("invalid
    OPD ID or does not match the patient"), and nothing is written. *)
Theorem RegisterPatient_opd_rejections st req o opdId :
  isValidMobile (rq_Mobile req) = true -> rq_OpdId req = Some o -> o <> ""%string ->
  (GetLatestVisitByOPDID st o = Auth.ErrNoRows \/
   exists p, GetLatestVisitByOPDID st o = Auth.DbOk p /\ Mobile p <> rq_Mobile req) ->
  RegisterPatient st req opdId = ((None, HandleServiceErr "4005" "INTERNAL"), st).
Proof.
  intros Hm Ho Hne Hcase. unfold RegisterPatient. rewrite Hm, Ho. simpl.
  apply String.eqb_neq in Hne. rewrite Hne.
  unfold validateRevisitPatient. rewrite Ho, Hne.
  pose proof (isValidMobile_nonempty _ Hm) as Hmn. apply String.eqb_neq in Hmn.
  rewrite Hmn. simpl.
  destruct Hcase as [-> | (p & -> & Hp)]; [reflexivity |].
  apply String.eqb_neq in Hp. rewrite Hp. reflexivity.
Qed.

Lemma RegisterPatient_opd_rejections_witness :
  RegisterPatient patient_store (revisit_req "9999999999" "LAEL7f3k" 30) "LAELnew"
    = ((None, HandleServiceErr "4005" "INTERNAL"), patient_store).
Proof.
  apply (RegisterPatient_opd_rejections patient_store (revisit_req "9999999999" "LAEL7f3k" 30)
           "LAEL7f3k" "LAELnew"); [vm_compute; reflexivity | reflexivity | discriminate |].
  right. exists first_visit. split; [vm_compute; reflexivity | discriminate].
Defined.

(** C9 (counterexample): a revisit that supplies only a negative age
    (-5) keeps the previous visit's age (41) in the row handed to
    CreatePatient: mergePatientData uses a new age only when it is > 0. *)
Lemma RegisterPatient_negative_age_not_used :
  RegisterPatient patient_store (revisit_req "7777777777" "LAEL7f3k" (-5)) "LAELnew"
    = finish_register (mergePatientData (revisit_req "7777777777" "LAEL7f3k" (-5)) first_visit)
        (CreatePatient patient_store
           (mergePatientData (revisit_req "7777777777" "LAEL7f3k" (-5)) first_visit)) /\
  cp_Age (mergePatientData (revisit_req "7777777777" "LAEL7f3k" (-5)) first_visit) = 41%Z.
Proof. split; vm_compute; reflexivity. Qed.

(** C9 (amended): for a revisit with a valid mobile matching the latest
    visit of its opd_id, supplying an age and no name, sex or address, the
    row RegisterPatient hands to CreatePatient keeps mobile, opd_id, name,
    sex and the four address fields of the previous visit, takes the
    supplied age when it is > 0 (the previous age otherwise), and has
    visit_number = previous + 1 (for an int32 previous below 2^31 - 1). *)
Theorem RegisterPatient_revisit_merge st req o opdId prev :
  isValidMobile (rq_Mobile req) = true -> rq_OpdId req = Some o -> o <> ""%string ->
  GetLatestVisitByOPDID st o = Auth.DbOk prev -> Mobile prev = rq_Mobile req ->
  rq_Name req = ""%string -> rq_Sex req = ""%string -> rq_Address req = no_address ->
  (- 2 ^ 31 <= VisitNumber prev < 2 ^ 31 - 1)%Z ->
  exists P, RegisterPatient st req opdId = finish_register P (CreatePatient st P) /\
    cp_Mobile P = Mobile prev /\ cp_OpdID P = OpdID prev /\
    cp_Name P = Name prev /\ cp_Sex P = Sex prev /\
    cp_AddressLocality P = AddressLocality prev /\ cp_AddressCity P = AddressCity prev /\
    cp_AddressState P = AddressState prev /\ cp_AddressPincode P = AddressPincode prev /\
    cp_Age P = (if (0 <? rq_Age req)%Z then rq_Age req else Age prev) /\
    cp_VisitNumber P = (VisitNumber prev + 1)%Z.
Proof.
  intros Hm Ho Hne Hg Hmob Hn Hs Ha Hv.
  exists (mergePatientData req prev). split.
  - unfold RegisterPatient. rewrite Hm, Ho. simpl.
    apply String.eqb_neq in Hne. rewrite Hne.
    unfold validateRevisitPatient. rewrite Ho, Hne.
    pose proof (isValidMobile_nonempty _ Hm) as Hmn. apply String.eqb_neq in Hmn.
    rewrite Hmn. simpl. rewrite Hg, Hmob, String.eqb_refl. reflexivity.
  - unfold mergePatientData, merge_null. rewrite Hn, Hs, Ha. simpl.
    rewrite wrap_int32_small by lia. repeat split.
Qed.

Lemma RegisterPatient_revisit_merge_witness :
  exists P, RegisterPatient patient_store (revisit_req "7777777777" "LAEL7f3k" 42) "LAELnew"
      = finish_register P (CreatePatient patient_store P) /\
    cp_Mobile P = Mobile first_visit /\ cp_OpdID P = OpdID first_visit /\
    cp_Name P = Name first_visit /\ cp_Sex P = Sex first_visit /\
    cp_AddressLocality P = AddressLocality first_visit /\
    cp_AddressCity P = AddressCity first_visit /\
    cp_AddressState P = AddressState first_visit /\
    cp_AddressPincode P = AddressPincode first_visit /\
    cp_Age P = (if (0 <? 42)%Z then 42%Z else Age first_visit) /\
    cp_VisitNumber P = (VisitNumber first_visit + 1)%Z.
Proof.
  apply (RegisterPatient_revisit_merge patient_store (revisit_req "7777777777" "LAEL7f3k" 42)
           "LAEL7f3k" "LAELnew" first_visit);
    [vm_compute; reflexivity | reflexivity | discriminate | vm_compute; reflexivity
    | reflexivity | reflexivity | reflexivity | reflexivity | simpl; lia].
Defined.

(* The schema's UNIQUE KEY opd_id rejects the revisit row itself: the
   revisit above ends in the database error 1005 and no row is added. *)
Lemma RegisterPatient_revisit_rejected_by_unique_opd_id :
  RegisterPatient patient_store (revisit_req "7777777777" "LAEL7f3k" 42) "LAELnew"
    = ((None, HandleServiceErr "1005" "INTERNAL"), patient_store).
Proof. vm_compute. reflexivity. Qed.

(* ----- RegisterPatient and LookupPatient ----- *)

Lemma fold_latest_visit_in opdId (l : list LaelPatient) : forall acc p,
  fold_left (fun acc p =>
    if String.eqb (OpdID p) opdId then
      match acc with
      | Some b => if (VisitNumber b <? VisitNumber p)%Z then Some p else acc
      | None => Some p
      end
    else acc) l acc = Some p ->
  acc = Some p \/ (In p l /\ OpdID p = opdId).
Proof.
  induction l as [| x l IH]; intros acc p H; simpl in H; [left; exact H |].
  destruct (IH _ _ H) as [Hacc | (Hin & Ho)]; [| right; split; [right |]; assumption].
  destruct (String.eqb (OpdID x) opdId) eqn:Eo; [| left; exact Hacc].
  apply String.eqb_eq in Eo.
  destruct acc as [b |].
  - destruct (VisitNumber b <? VisitNumber x)%Z.
    + inversion Hacc; subst. right. split; [left |]; auto.
    + left. exact Hacc.
  - inversion Hacc; subst. right. split; [left |]; auto.
Qed.

Lemma GetLatestVisitByOPDID_ok st o p :
  GetLatestVisitByOPDID st o = Auth.DbOk p -> available st = true /\ In p (rows st) /\ OpdID p = o.
Proof.
  unfold GetLatestVisitByOPDID. destruct (available st); simpl; [| discriminate].
  destruct (fold_left _ (rows st) None) as [q |] eqn:Ef; [| discriminate].
  intros H. inversion H; subst q.
  destruct (fold_latest_visit_in o (rows st) None p Ef) as [Hn | Hr]; [discriminate | auto].
Qed.

Lemma CreatePatient_duplicate_opd st params p :
  available st = true -> In p (rows st) -> OpdID p = cp_OpdID params ->
  CreatePatient st params = (Auth.ErrDb, st).
Proof.
  intros Ha Hin Ho. unfold CreatePatient. rewrite Ha. simpl.
  assert (Hx : existsb (fun q => String.eqb (OpdID q) (cp_OpdID params)) (rows st) = true)
    by (apply existsb_exists; exists p; rewrite Ho, String.eqb_refl; auto).
  rewrite Hx. reflexivity.
Qed.

(** X22: a revisit (a non-empty opd_id) never registers anything: its
    opd_id must already have a visit row, so the insert hits the UNIQUE KEY
    opd_id; RegisterPatient always returns no response and an error, with
    the store unchanged. *)
Theorem RegisterPatient_revisit_never_succeeds st req o opdId :
  rq_OpdId req = Some o -> o <> ""%string ->
  exists code, RegisterPatient st req opdId = ((None, HandleServiceErr code "INTERNAL"), st).
Proof.
  intros Ho Hne. apply String.eqb_neq in Hne. unfold RegisterPatient. rewrite Ho, Hne.
  destruct (isValidMobile (rq_Mobile req)); simpl; [| eexists; reflexivity].
  destruct (validateRevisitPatient req); simpl; [| eexists; reflexivity].
  destruct (GetLatestVisitByOPDID st o) as [prev | |] eqn:Eg; try (eexists; reflexivity).
  destruct (String.eqb (Mobile prev) (rq_Mobile req)); simpl; [| eexists; reflexivity].
  destruct (GetLatestVisitByOPDID_ok _ _ _ Eg) as (Ha & Hin & _).
  rewrite (CreatePatient_duplicate_opd st (mergePatientData req prev) prev Ha Hin eq_refl).
  eexists. reflexivity.
Qed.

Lemma RegisterPatient_revisit_never_succeeds_witness :
  exists code, RegisterPatient patient_store (revisit_req "7777777777" "LAEL7f3k" 42) "LAELnew"
    = ((None, HandleServiceErr code "INTERNAL"), patient_store).
Proof.
  apply (RegisterPatient_revisit_never_succeeds patient_store (revisit_req "7777777777" "LAEL7f3k" 42)
           "LAEL7f3k"); [reflexivity | discriminate].
Defined.

Lemma RegisterPatient_success_inv st req opdId resp e st' :
  RegisterPatient st req opdId = ((Some resp, e), st') ->
  isValidMobile (rq_Mobile req) = true /\
  exists params id, CreatePatient st params = (Auth.DbOk id, st') /\
    cp_Mobile params = rq_Mobile req /\
    resp = {| resp_ID := id; resp_OpdId := cp_OpdID params; resp_VisitNumber := cp_VisitNumber params |}.
Proof.
  intros H. unfold RegisterPatient in H.
  destruct (isValidMobile (rq_Mobile req)) eqn:Em; simpl in H; [| discriminate].
  split; [reflexivity |].
  assert (Hnew : forall params,
    cp_Mobile params = rq_Mobile req ->
    finish_register params (CreatePatient st params) = ((Some resp, e), st') ->
    exists params id, CreatePatient st params = (Auth.DbOk id, st') /\
      cp_Mobile params = rq_Mobile req /\
      resp = {| resp_ID := id; resp_OpdId := cp_OpdID params;
                resp_VisitNumber := cp_VisitNumber params |}).
  { intros params Hm Hf. unfold finish_register in Hf.
    destruct (CreatePatient st params) as [[id | |] st2] eqn:Ec; inversion Hf; subst.
    exists params, id. auto. }
  destruct (rq_OpdId req) as [o |].
  - destruct (String.eqb o "").
    + destruct (validateNewPatient req); simpl in H; [| discriminate].
      destruct (isValidAge (rq_Age req)); simpl in H; [| discriminate].
      destruct (isValidSex (rq_Sex req)); simpl in H; [| discriminate].
      refine (Hnew _ _ H); reflexivity.
    + destruct (validateRevisitPatient req); simpl in H; [| discriminate].
      destruct (GetLatestVisitByOPDID st o) as [prev | |]; try discriminate.
      destruct (String.eqb (Mobile prev) (rq_Mobile req)) eqn:Emp; simpl in H; [| discriminate].
      apply String.eqb_eq in Emp. exact (Hnew (mergePatientData req prev) Emp H).
  - destruct (validateNewPatient req); simpl in H; [| discriminate].
    destruct (isValidAge (rq_Age req)); simpl in H; [| discriminate].
    destruct (isValidSex (rq_Sex req)); simpl in H; [| discriminate].
    refine (Hnew _ _ H); reflexivity.
Qed.

(** X23: every successful RegisterPatient is visible to LookupPatient:
    looking up the registered mobile in the new store succeeds and lists a
    visit with the returned id and visit number. *)
Theorem RegisterPatient_then_LookupPatient st req opdId resp e st' :
  RegisterPatient st req opdId = ((Some resp, e), st') ->
  exists lk, LookupPatient st' (rq_Mobile req) = (Some lk, {| Code := OK; Type_ := "" |}) /\
    exists v, In v (lk_Visits lk) /\ v_ID v = resp_ID resp /\ v_VisitNumber v = resp_VisitNumber resp.
Proof.
  intros H. destruct (RegisterPatient_success_inv _ _ _ _ _ _ H) as (Hm & params & id & Hc & Hpm & ->).
  unfold CreatePatient in Hc. destruct (available st) eqn:Ea; simpl in Hc; [| discriminate].
  destruct (existsb _ (rows st)); [discriminate |]. inversion Hc; subst st' id. clear Hc.
  set (row := {| ID := Z.of_nat (length (rows st)) + 1; Name := cp_Name params;
                 Mobile := cp_Mobile params; OpdID := cp_OpdID params; Age := cp_Age params;
                 Sex := cp_Sex params; AddressLocality := cp_AddressLocality params;
                 AddressCity := cp_AddressCity params; AddressState := cp_AddressState params;
                 AddressPincode := cp_AddressPincode params;
                 VisitNumber := cp_VisitNumber params |}).
  unfold LookupPatient. rewrite Hm. simpl. unfold GetAllVisitsByMobile. simpl. rewrite ?Ea. simpl.
  assert (Hin : In row (merge_sort visit_le
            (List.filter (fun p => String.eqb (Mobile p) (rq_Mobile req)) (rows st ++ [row])))).
  { apply (Permutation_in _ (Permutation_sym (merge_sort_Permutation visit_le _))).
    apply List.filter_In. split; [apply in_or_app; right; left; reflexivity |].
    unfold row. simpl. rewrite Hpm. apply String.eqb_refl. }
  destruct (merge_sort visit_le _) as [| v0 vs] eqn:EL; [destruct Hin |].
  eexists. split; [reflexivity |].
  exists (to_visit row). split; [apply in_map; exact Hin | split; reflexivity].
Qed.

Lemma RegisterPatient_then_LookupPatient_witness :
  exists lk, LookupPatient (snd (RegisterPatient patient_store
      {| rq_Mobile := "7777777777"; rq_OpdId := None; rq_Name := "Meena"; rq_Age := 41;
         rq_Sex := "female"; rq_Address := no_address |} "LAELnew1")) "7777777777"
      = (Some lk, {| Code := OK; Type_ := "" |}) /\
    exists v, In v (lk_Visits lk) /\ v_ID v = 2%Z /\ v_VisitNumber v = 1%Z.
Proof.
  apply (RegisterPatient_then_LookupPatient patient_store
      {| rq_Mobile := "7777777777"; rq_OpdId := None; rq_Name := "Meena"; rq_Age := 41;
         rq_Sex := "female"; rq_Address := no_address |} "LAELnew1"
      {| resp_ID := 2; resp_OpdId := "LAELnew1"; resp_VisitNumber := 1 |}
      {| Code := OK; Type_ := "" |}).
  vm_compute. reflexivity.
Defined.

Lemma last_in_list {A} (l : list A) d : l <> [] -> In (List.last l d) l.
Proof.
  induction l as [| a l IH]; intros H; [congruence |].
  destruct l as [| b l]; [left; reflexivity |].
  right. apply IH. discriminate.
Qed.

Lemma StronglySorted_last_max (l : list LaelPatient) d :
  StronglySorted visit_le l -> forall x, In x l -> visit_le x (List.last l d).
Proof.
  induction l as [| a l IH]; intros Hs x Hx; [destruct Hx |].
  inversion Hs as [| a' l' Hs' Hf]; subst.
  destruct l as [| b l].
  - destruct Hx as [<- | []]. unfold visit_le. simpl. lia.
  - change (List.last (a :: b :: l) d) with (List.last (b :: l) d).
    destruct Hx as [<- | Hx]; [| apply IH; assumption].
    apply (proj1 (List.Forall_forall _ _) Hf). apply last_in_list. discriminate.
Qed.

Lemma StronglySorted_map_visits (l : list LaelPatient) :
  StronglySorted visit_le l ->
  StronglySorted (fun a b => (v_VisitNumber a <= v_VisitNumber b)%Z) (map to_visit l).
Proof.
  induction l as [| a l IH]; intros Hs; simpl; [constructor |].
  inversion Hs as [| a' l' Hs' Hf]; subst. constructor; [apply IH; exact Hs' |].
  apply List.Forall_forall. intros y Hy. apply in_map_iff in Hy as (x & <- & Hx).
  exact (proj1 (List.Forall_forall _ _) Hf x Hx).
Qed.

(** X24: a LookupPatient success lists exactly the store's visits of that
    mobile, ordered by visit number; its latest visit has the highest visit
    number; and its opd_id is that of a visit of the mobile with the lowest
    visit number. *)
Theorem LookupPatient_result st mobile lk e :
  LookupPatient st mobile = (Some lk, e) ->
  e = {| Code := OK; Type_ := "" |} /\ lk_Mobile lk = mobile /\ isValidMobile mobile = true /\
  Permutation (lk_Visits lk)
    (map to_visit (List.filter (fun p => String.eqb (Mobile p) mobile) (rows st))) /\
  StronglySorted (fun a b => (v_VisitNumber a <= v_VisitNumber b)%Z) (lk_Visits lk) /\
  (forall v, In v (lk_Visits lk) -> (v_VisitNumber v <= lv_VisitNumber (lk_LatestVisit lk))%Z) /\
  exists p, In p (rows st) /\ Mobile p = mobile /\ OpdID p = lk_OpdId lk /\
    (forall q, In q (rows st) -> Mobile q = mobile -> (VisitNumber p <= VisitNumber q)%Z).
Proof.
  unfold LookupPatient, GetAllVisitsByMobile. intros H.
  destruct (isValidMobile mobile) eqn:Hm; simpl in H; [| discriminate].
  destruct (available st); simpl in H; [| discriminate].
  pose proof (merge_sort_Permutation visit_le
    (List.filter (fun p => String.eqb (Mobile p) mobile) (rows st))) as Hp.
  pose proof (StronglySorted_merge_sort visit_le
    (List.filter (fun p => String.eqb (Mobile p) mobile) (rows st))) as Hs.
  destruct (merge_sort visit_le _) as [| v0 vs] eqn:EL; [discriminate |].
  inversion H; subst lk e. clear H. cbn [lk_Visits lk_Mobile lk_OpdId lk_LatestVisit lv_VisitNumber].
  split; [reflexivity | split; [reflexivity | split; [reflexivity |]]].
  split; [exact (Permutation_map to_visit Hp) |].
  split; [exact (StronglySorted_map_visits _ Hs) |].
  split.
  - intros v Hv. change (In v (map to_visit (v0 :: vs))) in Hv.
    apply in_map_iff in Hv as (x & <- & Hx).
    exact (StronglySorted_last_max _ v0 Hs x Hx).
  - assert (Hin : forall q, In q (v0 :: vs) <->
                 In q (rows st) /\ String.eqb (Mobile q) mobile = true).
    { intros q. split; intros Hq.
      - exact (proj1 (List.filter_In _ _ _) (Permutation_in _ Hp Hq)).
      - apply (Permutation_in _ (Permutation_sym Hp)). exact (proj2 (List.filter_In _ _ _) Hq). }
    destruct (proj1 (Hin v0) (or_introl eq_refl)) as [Hv0 Hmv0].
    exists v0. split; [exact Hv0 |]. split; [apply String.eqb_eq; exact Hmv0 |].
    split; [reflexivity |].
    intros q Hq Hmq. apply String.eqb_eq in Hmq.
    destruct (proj2 (Hin q) (conj Hq Hmq)) as [<- | Hq'].
    + unfold visit_le. lia.
    + inversion Hs as [| a' l' Hs' Hf]; subst.
      exact (proj1 (List.Forall_forall _ _) Hf q Hq').
Qed.

Lemma LookupPatient_result_witness :
  exists lk e, LookupPatient patient_store "7777777777" = (Some lk, e) /\
  e = {| Code := OK; Type_ := "" |} /\ lk_Mobile lk = "7777777777"%string /\
  isValidMobile "7777777777" = true /\
  Permutation (lk_Visits lk)
    (map to_visit (List.filter (fun p => String.eqb (Mobile p) "7777777777") (rows patient_store))) /\
  StronglySorted (fun a b => (v_VisitNumber a <= v_VisitNumber b)%Z) (lk_Visits lk) /\
  (forall v, In v (lk_Visits lk) -> (v_VisitNumber v <= lv_VisitNumber (lk_LatestVisit lk))%Z) /\
  exists p, In p (rows patient_store) /\ Mobile p = "7777777777"%string /\ OpdID p = lk_OpdId lk /\
    (forall q, In q (rows patient_store) -> Mobile q = "7777777777"%string ->
       (VisitNumber p <= VisitNumber q)%Z).
Proof.
  eexists. eexists. split; [vm_compute; reflexivity |].
  apply LookupPatient_result. vm_compute. reflexivity.
Defined.

Lemma find_none_filter st mobile :
  (forall p, In p (rows st) -> Mobile p <> mobile) ->
  merge_sort visit_le (List.filter (fun p => String.eqb (Mobile p) mobile) (rows st)) = [].
Proof.
  intros Hno.
  assert (Hf : List.filter (fun p => String.eqb (Mobile p) mobile) (rows st) = []).
  { induction (rows st) as [| x l IH]; simpl; [reflexivity |].
    destruct (String.eqb (Mobile x) mobile) eqn:E.
    - apply String.eqb_eq in E. exfalso. exact (Hno x (or_introl eq_refl) E).
    - apply IH. intros p Hp. apply Hno. right. exact Hp. }
  rewrite Hf. reflexivity.
Qed.

(** X25: LookupPatient answers an invalid mobile with 4003, an unavailable
    database with 1005, and a mobile without any visit with 4000. *)
Theorem LookupPatient_errors st mobile :
  (isValidMobile mobile = false -> LookupPatient st mobile = (None, HandleServiceErr "4003" "INTERNAL")) /\
  (isValidMobile mobile = true -> available st = false ->
     LookupPatient st mobile = (None, HandleServiceErr "1005" "INTERNAL")) /\
  (isValidMobile mobile = true -> available st = true ->
     (forall p, In p (rows st) -> Mobile p <> mobile) ->
     LookupPatient st mobile = (None, HandleServiceErr "4000" "INTERNAL")).
Proof.
  unfold LookupPatient, GetAllVisitsByMobile.
  split; [intros -> ; reflexivity |]. split; [intros -> ->; reflexivity |].
  intros -> -> Hno. simpl.
  rewrite (find_none_filter st mobile Hno). reflexivity.
Qed.

Lemma LookupPatient_errors_witness :
  LookupPatient patient_store "9999999999" = (None, HandleServiceErr "4000" "INTERNAL").
Proof.
  apply (proj2 (proj2 (LookupPatient_errors patient_store "9999999999")));
    [reflexivity | reflexivity | intros p [<- | []]; discriminate].
Defined.



(** X27: a new-patient registration with a valid mobile answers 4004 when
    the name, the sex or the age (0) is missing, and 4001 when all are given
    but the age is outside 1..150 or the sex is not male, female or other;
    in both cases nothing is written. *)
Theorem RegisterPatient_new_patient_validation st req opdId :
  isValidMobile (rq_Mobile req) = true ->
  (rq_OpdId req = None \/ rq_OpdId req = Some ""%string) ->
  ((rq_Name req = ""%string \/ rq_Age req = 0%Z \/ rq_Sex req = ""%string) ->
     RegisterPatient st req opdId = ((None, HandleServiceErr "4004" "INTERNAL"), st)) /\
  (rq_Name req <> ""%string -> rq_Age req <> 0%Z -> rq_Sex req <> ""%string ->
     (isValidAge (rq_Age req) = false \/ isValidSex (rq_Sex req) = false) ->
     RegisterPatient st req opdId = ((None, HandleServiceErr "4001" "INTERNAL"), st)).
Proof.
  intros Hm Ho.
  assert (Hmob : String.eqb (rq_Mobile req) "" = false)
    by (destruct (rq_Mobile req); [discriminate Hm | reflexivity]).
  assert (Hreg : forall r, RegisterPatient st req opdId = r <->
    (if negb (validateNewPatient req) then ((None, HandleServiceErr "4004" "INTERNAL"), st)
     else if negb (isValidAge (rq_Age req)) then ((None, HandleServiceErr "4001" "INTERNAL"), st)
     else if negb (isValidSex (rq_Sex req)) then ((None, HandleServiceErr "4001" "INTERNAL"), st)
     else let params := {| cp_Name := rq_Name req; cp_Mobile := rq_Mobile req;
                           cp_OpdID := opdId; cp_Age := rq_Age req; cp_Sex := rq_Sex req;
                           cp_AddressLocality := set_null (Locality (rq_Address req));
                           cp_AddressCity := set_null (City (rq_Address req));
                           cp_AddressState := set_null (State (rq_Address req));
                           cp_AddressPincode := set_null (Pincode (rq_Address req));
                           cp_VisitNumber := 1 |} in
          finish_register params (CreatePatient st params)) = r).
  { intros r. unfold RegisterPatient. rewrite Hm. simpl.
    destruct Ho as [-> | ->]; reflexivity. }
  split.
  - intros Hmiss. apply Hreg.
    assert (Hv : validateNewPatient req = false).
    { unfold validateNewPatient. rewrite Hmob.
      destruct Hmiss as [-> | [-> | ->]]; simpl;
        [reflexivity | rewrite orb_true_r; reflexivity | rewrite orb_true_r; reflexivity]. }
    rewrite Hv. reflexivity.
  - intros Hn Ha Hs Hbad. apply Hreg.
    assert (Hv : validateNewPatient req = true).
    { unfold validateNewPatient. rewrite Hmob.
      apply String.eqb_neq in Hn, Hs. apply Z.eqb_neq in Ha. rewrite Hn, Ha, Hs. reflexivity. }
    rewrite Hv. simpl.
    destruct Hbad as [-> | Hsx]; [reflexivity |].
    destruct (isValidAge (rq_Age req)); simpl; [rewrite Hsx |]; reflexivity.
Qed.

Lemma RegisterPatient_new_patient_validation_witness :
  RegisterPatient patient_store
    {| rq_Mobile := "7777777777"; rq_OpdId := None; rq_Name := "Meena"; rq_Age := 200;
       rq_Sex := "female"; rq_Address := no_address |} "LAELnew1" =
  ((None, HandleServiceErr "4001" "INTERNAL"), patient_store).
Proof.
  apply (proj2 (RegisterPatient_new_patient_validation patient_store
    {| rq_Mobile := "7777777777"; rq_OpdId := None; rq_Name := "Meena"; rq_Age := 200;
       rq_Sex := "female"; rq_Address := no_address |} "LAELnew1" eq_refl (or_introl eq_refl)));
    [discriminate | discriminate | discriminate | left; reflexivity].
Defined.

End PatientFacts.
